(** * ManagedCluster reconciler (internal/controller): a shallow embedding

    The reconciler of [ManagedCluster] objects is embedded function by
    function.  The object under reconciliation is threaded explicitly
    (Go mutates it through a pointer), every request sent to a collaborator
    is appended to a log of [Event]s, and what the collaborators answer is
    read from a [World] record. *)

From stdpp Require Import gmap strings list fin_maps.
From Stdlib Require Import ZArith.

Local Open Scope string_scope.
Local Open Scope Z_scope.

(** ** Errors *)

(** Go's [error] values, as far as the reconciler inspects them:
    [apierrors.IsNotFound] and [errors.As(_, &status.ResourceNotFoundError{})]
    look through wrapping ([%w]) and joining. *)
Inductive ErrKind := ApiNotFound | ResourceNotFound | OtherError.

Inductive error :=
| ErrLeaf (k : ErrKind) (msg : string)
| ErrWrap (prefix : string) (e : error)
| ErrJoin1 (e : error)
| ErrJoin2 (e1 e2 : error).

#[global] Instance ErrKind_eq_dec : EqDecision ErrKind.
Proof. solve_decision. Defined.

Definition newline : string := String (Ascii.ascii_of_nat 10) EmptyString.

(** [err.Error()] *)
Fixpoint Error (e : error) : string :=
  match e with
  | ErrLeaf _ msg => msg
  | ErrWrap prefix e' => prefix +:+ Error e'
  | ErrJoin1 e1 => Error e1
  | ErrJoin2 e1 e2 => Error e1 +:+ newline +:+ Error e2
  end.

Fixpoint hasKind (k : ErrKind) (e : error) : bool :=
  match e with
  | ErrLeaf k' _ => bool_decide (k' = k)
  | ErrWrap _ e' => hasKind k e'
  | ErrJoin1 e1 => hasKind k e1
  | ErrJoin2 e1 e2 => hasKind k e1 || hasKind k e2
  end.

Definition IsNotFound (e : error) : bool := hasKind ApiNotFound e.
Definition IsResourceNotFound (e : error) : bool := hasKind ResourceNotFound e.

(** [errors.New(msg)] *)
Definition errors_New (msg : string) : error := ErrLeaf OtherError msg.
(** [fmt.Errorf(prefix + "%w", e)] *)
Definition Errorf_w (prefix : string) (e : error) : error := ErrWrap prefix e.
(** [fmt.Errorf(prefix + "%s", e)]: only the text of [e] survives. *)
Definition Errorf_s (prefix : string) (e : error) : error :=
  ErrLeaf OtherError (prefix +:+ Error e).

(** [errors.Join(a, b)]: nil when both are nil. *)
Definition errors_Join (a b : option error) : option error :=
  match a, b with
  | None, None => None
  | Some e, None => Some (ErrJoin1 e)
  | None, Some e => Some (ErrJoin1 e)
  | Some e1, Some e2 => Some (ErrJoin2 e1 e2)
  end.

Inductive result (A : Type) :=
| Ok (a : A)
| Err (e : error).
Arguments Ok {A} a.
Arguments Err {A} e.

(** ** Conditions *)

Inductive ConditionStatus := ConditionTrue | ConditionFalse | ConditionUnknown.

#[global] Instance ConditionStatus_eq_dec : EqDecision ConditionStatus.
Proof. solve_decision. Defined.

(** [metav1.Condition]; [LastTransitionTime] and [ObservedGeneration] are
    written by [SetStatusCondition] but never read by the reconciler and
    are left out. *)
Record Condition := mkCondition {
  cType : string;
  cStatus : ConditionStatus;
  cReason : string;
  cMessage : string
}.

#[global] Instance Condition_eq_dec : EqDecision Condition.
Proof. solve_decision. Defined.

(** Modelled from the spec: the condition types and reasons are constants of
    api/v1alpha1, which is not among the sources; the spec names them
    ([TemplateReady], [HelmChartReady], [CredentialReady],
    [HelmReleaseReady], [CredentialsPropagated], the umbrella [Ready];
    reasons Succeeded, Failed, Progressing). *)
Definition TemplateReadyCondition : string := "TemplateReady".
Definition HelmChartReadyCondition : string := "HelmChartReady".
Definition HelmReleaseReadyCondition : string := "HelmReleaseReady".
Definition CredentialReadyCondition : string := "CredentialReady".
Definition CredentialsPropagatedCondition : string := "CredentialsPropagated".
Definition ReadyCondition : string := "Ready".
Definition SucceededReason : string := "Succeeded".
Definition FailedReason : string := "Failed".
Definition ProgressingReason : string := "Progressing".

(** [apimeta.FindStatusCondition]: the first condition of that type. *)
Fixpoint FindStatusCondition (conditions : list Condition) (conditionType : string)
  : option Condition :=
  match conditions with
  | [] => None
  | c :: rest =>
      if bool_decide (cType c = conditionType) then Some c
      else FindStatusCondition rest conditionType
  end.

(** [apimeta.SetStatusCondition]: overwrite the first condition of the same
    type in place, append when there is none. *)
Fixpoint SetStatusCondition (conditions : list Condition) (newCondition : Condition)
  : list Condition :=
  match conditions with
  | [] => [newCondition]
  | c :: rest =>
      if bool_decide (cType c = cType newCondition) then newCondition :: rest
      else c :: SetStatusCondition rest newCondition
  end.

(** [apimeta.IsStatusConditionTrue] *)
Definition IsStatusConditionTrue (conditions : list Condition) (conditionType : string) : bool :=
  match FindStatusCondition conditions conditionType with
  | Some c => bool_decide (cStatus c = ConditionTrue)
  | None => false
  end.

(** ** Finalizers *)

(** Modelled from the spec: the object's own finalizer and the blocking
    finalizer a provider puts on its workload object.  Both are constants
    of api/v1alpha1, which is not among the sources; the reconciler only
    compares them with the entries of a finalizer list, so the strings
    below stand for whatever the constants hold. *)
Definition ManagedClusterFinalizer : string := "hmc.mirantis.com/managed-cluster".
Definition BlockingFinalizer : string := "hmc.mirantis.com/cleanup".

Definition ContainsFinalizer (finalizers : list string) (finalizer : string) : bool :=
  bool_decide (finalizer ∈ finalizers).

(** [controllerutil.AddFinalizer]: the new list and whether it changed. *)
Definition AddFinalizer (finalizers : list string) (finalizer : string)
  : list string * bool :=
  if ContainsFinalizer finalizers finalizer then (finalizers, false)
  else ((finalizers ++ [finalizer])%list, true).

(** [controllerutil.RemoveFinalizer]: every occurrence is dropped. *)
Definition RemoveFinalizer (finalizers : list string) (finalizer : string)
  : list string * bool :=
  let kept := filter (λ f, f ≠ finalizer) finalizers in
  (kept, negb (bool_decide (length kept = length finalizers))).

(** ** Objects *)

Definition Duration := Z.
Definition Second : Duration := 1000000000.
Definition DefaultRequeueInterval : Duration := 10 * Second.

(** [ctrl.Result] *)
Record Result := mkResult { Requeue : bool; RequeueAfter : Duration }.
Definition Result_zero : Result := mkResult false 0.

#[global] Instance Result_eq_dec : EqDecision Result.
Proof. solve_decision. Defined.

(** [corev1.ObjectReference], the identity a Credential points to. *)
Record ObjectReference := mkObjectReference {
  or_APIVersion : string;
  or_Kind : string;
  or_Namespace : string;
  or_Name : string
}.

#[global] Instance ObjectReference_eq_dec : EqDecision ObjectReference.
Proof. solve_decision. Defined.

(** A value stored in a [map[string]any]: either something [json.Unmarshal]
    decoded, or the [*corev1.ObjectReference] the reconciler stores under
    "clusterIdentity".  Decoded values are opaque here; numbers pass through
    [float64] in Go, which is not represented. *)
Inductive GoValue :=
| Decoded (v : string)
| IdentityRef (idRef : option ObjectReference).

#[global] Instance GoValue_eq_dec : EqDecision GoValue.
Proof. solve_decision. Defined.

(** [apiextensionsv1.JSON], as [encoding/json] reads its [Raw] bytes into a
    [map[string]any]: the literal null, an object (given by its members;
    member order and repeated keys do not survive decoding), or a document
    that [json.Unmarshal] rejects with the given message. *)
Inductive JSON :=
| JSONNull
| JSONObject (members : gmap string GoValue)
| JSONRejected (why : string).

#[global] Instance JSON_eq_dec : EqDecision JSON.
Proof. solve_decision. Defined.

(** [hcv2.CrossNamespaceSourceReference] *)
Record ChartRef := mkChartRef {
  cr_Kind : string;
  cr_Namespace : string;
  cr_Name : string
}.

#[global] Instance ChartRef_eq_dec : EqDecision ChartRef.
Proof. solve_decision. Defined.

(** [hmc.ManagedCluster]: metadata, [Spec] and [Status] in one record.
    [DeletionTimestamp] is kept as the flag [!DeletionTimestamp.IsZero()]. *)
Record ManagedCluster := mkManagedCluster {
  Namespace : string;
  Name : string;
  UID : string;
  Generation : Z;
  Deleting : bool;
  Finalizers : list string;
  Spec_Template : string;
  Spec_Credential : string;
  Spec_Config : option JSON;
  Spec_DryRun : bool;
  Spec_Services : list string;
  Spec_ServicesPriority : Z;
  Spec_StopOnConflict : bool;
  Status_ObservedGeneration : Z;
  Status_Conditions : list Condition;
  Status_KubernetesVersion : string;
  Status_AvailableUpgrades : list string
}.

#[global] Instance ManagedCluster_eq_dec : EqDecision ManagedCluster.
Proof. solve_decision. Defined.

Definition SetFinalizers (fs : list string) (mc : ManagedCluster) : ManagedCluster :=
  mkManagedCluster (Namespace mc) (Name mc) (UID mc) (Generation mc) (Deleting mc)
    fs (Spec_Template mc) (Spec_Credential mc) (Spec_Config mc) (Spec_DryRun mc)
    (Spec_Services mc) (Spec_ServicesPriority mc) (Spec_StopOnConflict mc)
    (Status_ObservedGeneration mc) (Status_Conditions mc)
    (Status_KubernetesVersion mc) (Status_AvailableUpgrades mc).

Definition SetObservedGeneration (g : Z) (mc : ManagedCluster) : ManagedCluster :=
  mkManagedCluster (Namespace mc) (Name mc) (UID mc) (Generation mc) (Deleting mc)
    (Finalizers mc) (Spec_Template mc) (Spec_Credential mc) (Spec_Config mc)
    (Spec_DryRun mc) (Spec_Services mc) (Spec_ServicesPriority mc)
    (Spec_StopOnConflict mc) g (Status_Conditions mc)
    (Status_KubernetesVersion mc) (Status_AvailableUpgrades mc).

Definition SetConditions (cs : list Condition) (mc : ManagedCluster) : ManagedCluster :=
  mkManagedCluster (Namespace mc) (Name mc) (UID mc) (Generation mc) (Deleting mc)
    (Finalizers mc) (Spec_Template mc) (Spec_Credential mc) (Spec_Config mc)
    (Spec_DryRun mc) (Spec_Services mc) (Spec_ServicesPriority mc)
    (Spec_StopOnConflict mc) (Status_ObservedGeneration mc) cs
    (Status_KubernetesVersion mc) (Status_AvailableUpgrades mc).

Definition SetKubernetesVersion (v : string) (mc : ManagedCluster) : ManagedCluster :=
  mkManagedCluster (Namespace mc) (Name mc) (UID mc) (Generation mc) (Deleting mc)
    (Finalizers mc) (Spec_Template mc) (Spec_Credential mc) (Spec_Config mc)
    (Spec_DryRun mc) (Spec_Services mc) (Spec_ServicesPriority mc)
    (Spec_StopOnConflict mc) (Status_ObservedGeneration mc) (Status_Conditions mc)
    v (Status_AvailableUpgrades mc).

Definition SetAvailableUpgrades (us : list string) (mc : ManagedCluster) : ManagedCluster :=
  mkManagedCluster (Namespace mc) (Name mc) (UID mc) (Generation mc) (Deleting mc)
    (Finalizers mc) (Spec_Template mc) (Spec_Credential mc) (Spec_Config mc)
    (Spec_DryRun mc) (Spec_Services mc) (Spec_ServicesPriority mc)
    (Spec_StopOnConflict mc) (Status_ObservedGeneration mc) (Status_Conditions mc)
    (Status_KubernetesVersion mc) us.

(** [apimeta.SetStatusCondition(managedCluster.GetConditions(), c)] *)
Definition setCondition (c : Condition) (mc : ManagedCluster) : ManagedCluster :=
  SetConditions (SetStatusCondition (Status_Conditions mc) c) mc.

(** [hmc.ClusterTemplate] *)
Record ClusterTemplate := mkClusterTemplate {
  t_Namespace : string;
  t_Name : string;
  t_Valid : bool;
  t_KubernetesVersion : string;
  t_ChartRef : option ChartRef;
  t_Providers : list string
}.

(** The zero value [&hmc.ClusterTemplate{}], which a failed [Get] leaves. *)
Definition ClusterTemplate_zero : ClusterTemplate :=
  mkClusterTemplate "" "" false "" None [].

(** [hmc.AvailableUpgrade], [hmc.SupportedTemplate], [hmc.ClusterTemplateChain] *)
Record AvailableUpgrade := mkAvailableUpgrade { au_Name : string }.

Record SupportedTemplate := mkSupportedTemplate {
  st_Name : string;
  st_AvailableUpgrades : list AvailableUpgrade
}.

Record ClusterTemplateChain := mkClusterTemplateChain {
  chain_Name : string;
  chain_SupportedTemplates : list SupportedTemplate
}.

(** [hmc.Credential] *)
Record Credential := mkCredential {
  cred_IdentityRef : option ObjectReference;
  cred_State : string
}.

(** Modelled from the spec: [hmc.CredentialReady], the state of a
    Credential that is ready (a constant of api/v1alpha1; the reconciler
    only compares [Status.State] with it). *)
Definition CredentialReady : string := "Ready".

(** [hcv2.HelmRelease], read through [fluxconditions]. *)
Record HelmRelease := mkHelmRelease { hr_Conditions : list Condition }.

(** [fluxmeta.ReadyCondition] *)
Definition fluxmeta_ReadyCondition : string := "Ready".
Definition fluxconditions_Get (hr : HelmRelease) (t : string) : option Condition :=
  FindStatusCondition (hr_Conditions hr) t.
Definition fluxconditions_IsReady (hr : HelmRelease) : bool :=
  IsStatusConditionTrue (hr_Conditions hr) fluxmeta_ReadyCondition.

(** [metav1.OwnerReference] *)
Record OwnerReference := mkOwnerReference {
  owner_Kind : string;
  owner_Name : string;
  owner_UID : string
}.

Definition ManagedClusterKind : string := "ManagedCluster".

Definition ownerOf (mc : ManagedCluster) : OwnerReference :=
  mkOwnerReference ManagedClusterKind (Name mc) (UID mc).

(** [helm.ReconcileHelmReleaseOpts] *)
Record ReconcileHelmReleaseOpts := mkReconcileHelmReleaseOpts {
  opts_Values : JSON;
  opts_OwnerReference : OwnerReference;
  opts_ChartRef : option ChartRef
}.

(** [schema.GroupVersionKind] *)
Record GroupVersionKind := mkGVK { Group : string; Version : string; Kind : string }.

#[global] Instance GroupVersionKind_eq_dec : EqDecision GroupVersionKind.
Proof. solve_decision. Defined.

(** [metav1.PartialObjectMetadata] *)
Record PartialObjectMetadata := mkPartialObjectMetadata {
  pom_Namespace : string;
  pom_Name : string;
  pom_Finalizers : list string
}.

(** The label keys used in selectors (constants of api/v1alpha1). *)
Inductive LabelKey := FluxHelmChartNameKey | FluxHelmChartNamespaceKey | ClusterNameLabelKey.

(** [credspropagation.PropagationCfg]; [Client] is the reconciler's own. *)
Record PropagationCfg := mkPropagationCfg {
  cfg_ManagedCluster : ManagedCluster;
  cfg_KubeconfSecret : string;
  cfg_SystemNamespace : string
}.

(** [sveltos.ReconcileProfileOpts] *)
Record ReconcileProfileOpts := mkReconcileProfileOpts {
  profile_OwnerReference : OwnerReference;
  profile_MatchLabels : list (LabelKey * string);
  profile_HelmChartOpts : list string;
  profile_Priority : Z;
  profile_StopOnConflict : bool
}.

(** ** Collaborators *)

(** Requests the reconciler sends out, in the order it sends them.  A
    request is logged when it is issued, whatever the collaborator answers. *)
Inductive Event :=
| EvTrackManagedClusterCreate (mgmtUID uid template : string) (dryRun : bool)
| EvUpdate (mc : ManagedCluster)
| EvStatusUpdate (mc : ManagedCluster)
| EvReconcileHelmRelease (name namespace : string) (opts : ReconcileHelmReleaseOpts)
| EvDeleteHelmRelease (name namespace : string)
| EvDeleteProfile (namespace name : string)
| EvReconcileProfile (namespace name : string) (opts : ReconcileProfileOpts)
| EvPatchCluster (cluster : PartialObjectMetadata)
| EvPropagateAzureSecrets (cfg : PropagationCfg)
| EvPropagateVSphereSecrets (cfg : PropagationCfg).

(** [ManagedClusterReconciler]: besides [SystemNamespace], the record holds
    what each collaborator answers during one reconcile pass (the same
    question gets the same answer throughout the pass): the embedded
    [client.Client] (typed [Get], [List], [Update], [Status().Update],
    [Patch]), the dynamic client behind [status.GetResourceConditions], and
    the helpers of packages that are not among the sources ([helm],
    [sveltos], [credspropagation], the api types' methods [InitConditions]
    and [HelmValues], and [helmChartOpts]).  [InitConditions] gives the
    condition list it leaves on an object that has none.  [telemetry]'s
    answer is only logged and has no field. *)
Record ManagedClusterReconciler := mkReconciler {
  SystemNamespace : string;
  Get_ManagedCluster : string → string → result ManagedCluster;
  Get_Management : result string;
  Get_ClusterTemplate : string → string → result ClusterTemplate;
  Get_HelmChart : string → string → result (option string);
  Get_Credential : string → string → result Credential;
  Get_Secret : string → string → result string;
  Get_HelmRelease : string → string → result HelmRelease;
  List_ClusterTemplateChains : string → string → result (list ClusterTemplateChain);
  List_PartialObjectMetadata :
    GroupVersionKind → string → LabelKey → string → result (list PartialObjectMetadata);
  Client_Update : ManagedCluster → option error;
  Status_Update : ManagedCluster → option error;
  Client_Patch : PartialObjectMetadata → option error;
  GetResourceConditions : string → string → result (list Condition);
  InitConditions : ManagedCluster → list Condition;
  HelmValues : ManagedCluster → result (gmap string GoValue);
  helm_DownloadChartFromArtifact : option string → result string;
  helm_ActionConfigInit : string → option error;
  helm_InstallRun : string → string → string → gmap string GoValue → option error;
  helm_ReconcileHelmRelease :
    string → string → ReconcileHelmReleaseOpts → result HelmRelease;
  helm_DeleteHelmRelease : string → string → option error;
  sveltos_ReconcileProfile : string → string → ReconcileProfileOpts → option error;
  sveltos_DeleteProfile : string → string → option error;
  helmChartOpts : string → list string → result (list string);
  credspropagation_PropagateAzureSecrets : PropagationCfg → option error;
  credspropagation_PropagateVSphereSecrets : PropagationCfg → option error
}.

(** How a call ends: it returns, or it panics (a nil dereference or a write
    to a nil map). *)
Inductive Outcome (A : Type) :=
| Returned (a : A)
| Panicked (why : string).
Arguments Returned {A} a.
Arguments Panicked {A} why.

Definition nsName (namespace name : string) : string := namespace +:+ "/" +:+ name.

(** ** The status-persist step *)

(** The loops of [setAvailableUpgrades] that fill [availableUpgradesMap]. *)
Definition addAvailableUpgrades (m : gmap string AvailableUpgrade)
    (availableUpgrades : list AvailableUpgrade) : gmap string AvailableUpgrade :=
  foldl (λ m availableUpgrade, <[au_Name availableUpgrade := availableUpgrade]> m)
        m availableUpgrades.

Definition addSupportedTemplates (templateName : string)
    (m : gmap string AvailableUpgrade) (supportedTemplates : list SupportedTemplate)
  : gmap string AvailableUpgrade :=
  foldl (λ m supportedTemplate,
           if bool_decide (st_Name supportedTemplate = templateName)
           then addAvailableUpgrades m (st_AvailableUpgrades supportedTemplate)
           else m)
        m supportedTemplates.

Definition availableUpgradesMap (templateName : string)
    (chains : list ClusterTemplateChain) : gmap string AvailableUpgrade :=
  foldl (λ m chain, addSupportedTemplates templateName m (chain_SupportedTemplates chain))
        ∅ chains.

(** The second loop: the names of the map's values.  Go ranges over a map in
    an unspecified order; the model lists the entries in the map's own
    order, and statements about the result are made up to permutation. *)
Definition availableUpgradeNames (templateName : string)
    (chains : list ClusterTemplateChain) : list string :=
  (λ kv, au_Name kv.2) <$> map_to_list (availableUpgradesMap templateName chains).

(** [setAvailableUpgrades]; [template] is never nil at its one call site. *)
Definition setAvailableUpgrades (r : ManagedClusterReconciler)
    (managedCluster : ManagedCluster) (template : option ClusterTemplate)
  : option error * ManagedCluster :=
  match template with
  | None => (None, managedCluster)
  | Some template =>
      match List_ClusterTemplateChains r (t_Namespace template) (t_Name template) with
      | Err err => (Some err, managedCluster)
      | Ok chains =>
          (None, SetAvailableUpgrades
                   (availableUpgradeNames (t_Name template) chains) managedCluster)
      end
  end.

(** The loop of [updateStatus] over the conditions: the pair
    [(warnings, errs)]. *)
Definition collectMessages (conditions : list Condition) : string * string :=
  foldl (λ '(warnings, errs) condition,
           if bool_decide (cType condition = ReadyCondition) then (warnings, errs)
           else
             let warnings :=
               if bool_decide (cStatus condition = ConditionUnknown)
               then warnings +:+ cMessage condition +:+ ". " else warnings in
             let errs :=
               if bool_decide (cStatus condition = ConditionFalse)
               then errs +:+ cMessage condition +:+ ". " else errs in
             (warnings, errs))
        ("", "") conditions.

(** The umbrella condition [updateStatus] builds from [(warnings, errs)]. *)
Definition readyCondition (conditions : list Condition) : Condition :=
  let '(warnings, errs) := collectMessages conditions in
  let condition :=
    mkCondition ReadyCondition ConditionTrue SucceededReason "ManagedCluster is ready" in
  let condition :=
    if bool_decide (warnings ≠ "")
    then mkCondition ReadyCondition ConditionUnknown ProgressingReason warnings
    else condition in
  if bool_decide (errs ≠ "")
  then mkCondition ReadyCondition ConditionFalse FailedReason errs
  else condition.

Definition updateStatus (r : ManagedClusterReconciler)
    (managedCluster : ManagedCluster) (template : ClusterTemplate)
  : option error * ManagedCluster * list Event :=
  let managedCluster := SetObservedGeneration (Generation managedCluster) managedCluster in
  let condition := readyCondition (Status_Conditions managedCluster) in
  let managedCluster := setCondition condition managedCluster in
  match setAvailableUpgrades r managedCluster (Some template) with
  | (Some _, managedCluster) =>
      (Some (errors_New "failed to set available upgrades"), managedCluster, [])
  | (None, managedCluster) =>
      match Status_Update r managedCluster with
      | Some err =>
          (Some (Errorf_w ("failed to update status for managedCluster "
                           +:+ nsName (Namespace managedCluster) (Name managedCluster)
                           +:+ ": ") err),
           managedCluster, [EvStatusUpdate managedCluster])
      | None => (None, managedCluster, [EvStatusUpdate managedCluster])
      end
  end.

(** ** Infrastructure providers of a template *)

Fixpoint dropString (n : nat) (s : string) : string :=
  match n, s with
  | O, _ => s
  | S n', String _ s' => dropString n' s'
  | S _, EmptyString => EmptyString
  end.

Definition infraPrefix : string := "infrastructure-".

(** [getInfraProvidersNames]: for each provider entry holding
    [infraPrefix], what follows its first occurrence. *)
Definition infraProviderName (v : string) : option string :=
  match String.index 0 infraPrefix v with
  | Some idx => Some (dropString (idx + String.length infraPrefix) v)
  | None => None
  end.

Definition getInfraProvidersNames (r : ManagedClusterReconciler)
    (templateNamespace templateName : string) : result (list string) :=
  match Get_ClusterTemplate r templateNamespace templateName with
  | Err err => Err err
  | Ok template => Ok (omap infraProviderName (t_Providers template))
  end.

(** ** Deletion *)

Definition gvkAWSCluster : GroupVersionKind :=
  mkGVK "infrastructure.cluster.x-k8s.io" "v1beta2" "AWSCluster".
Definition gvkAzureCluster : GroupVersionKind :=
  mkGVK "infrastructure.cluster.x-k8s.io" "v1beta1" "AzureCluster".
Definition gvkMachine : GroupVersionKind :=
  mkGVK "cluster.x-k8s.io" "v1beta1" "Machine".

Definition providerGVKs : gmap string GroupVersionKind :=
  <["aws" := gvkAWSCluster]> (<["azure" := gvkAzureCluster]> ∅).

Definition getCluster (r : ManagedClusterReconciler) (namespace name : string)
    (gvk : GroupVersionKind) : result PartialObjectMetadata :=
  match List_PartialObjectMetadata r gvk namespace FluxHelmChartNameKey name with
  | Err err => Err err
  | Ok [] => Err (errors_New (Kind gvk +:+ " with name " +:+ name +:+ " was not found"))
  | Ok (item :: _) => Ok item
  end.

Definition objectsAvailable (r : ManagedClusterReconciler) (namespace clusterName : string)
    (gvk : GroupVersionKind) : result bool :=
  match List_PartialObjectMetadata r gvk namespace ClusterNameLabelKey clusterName with
  | Err err => Err err
  | Ok items => Ok (negb (bool_decide (length items = 0%nat)))
  end.

Definition removeClusterFinalizer (r : ManagedClusterReconciler)
    (cluster : PartialObjectMetadata) : option error * list Event :=
  let '(finalizers, removed) := RemoveFinalizer (pom_Finalizers cluster) BlockingFinalizer in
  if removed then
    let cluster := mkPartialObjectMetadata (pom_Namespace cluster) (pom_Name cluster) finalizers in
    match Client_Patch r cluster with
    | Some err =>
        (Some (Errorf_w ("failed to patch cluster "
                         +:+ nsName (pom_Namespace cluster) (pom_Name cluster) +:+ ": ") err),
         [EvPatchCluster cluster])
    | None => (None, [EvPatchCluster cluster])
    end
  else (None, []).

(** The loop of [releaseCluster] over the providers. *)
Fixpoint releaseProviders (r : ManagedClusterReconciler) (namespace name : string)
    (providers : list string) : option error * list Event :=
  match providers with
  | [] => (None, [])
  | provider :: rest =>
      match providerGVKs !! provider with
      | None => releaseProviders r namespace name rest
      | Some gvk =>
          match getCluster r namespace name gvk with
          | Err err =>
              if bool_decide (provider = "aws") && IsNotFound err then (None, [])
              else (Some err, [])
          | Ok cluster =>
              match objectsAvailable r namespace (pom_Name cluster) gvkMachine with
              | Err err => (Some err, [])
              | Ok found =>
                  if negb found then removeClusterFinalizer r cluster
                  else releaseProviders r namespace name rest
              end
          end
      end
  end.

Definition releaseCluster (r : ManagedClusterReconciler)
    (namespace name templateName : string) : option error * list Event :=
  match getInfraProvidersNames r namespace templateName with
  | Err err => (Some err, [])
  | Ok providers => releaseProviders r namespace name providers
  end.

Definition Delete (r : ManagedClusterReconciler) (managedCluster : ManagedCluster)
  : (Result * option error) * ManagedCluster * list Event :=
  match Get_HelmRelease r (Namespace managedCluster) (Name managedCluster) with
  | Err err =>
      if IsNotFound err then
        let '(finalizers, removed) :=
          RemoveFinalizer (Finalizers managedCluster) ManagedClusterFinalizer in
        let managedCluster := SetFinalizers finalizers managedCluster in
        if removed then
          match Client_Update r managedCluster with
          | Some err =>
              ((Result_zero,
                Some (Errorf_w ("failed to update managedCluster "
                                +:+ nsName (Namespace managedCluster) (Name managedCluster)
                                +:+ ": ") err)),
               managedCluster, [EvUpdate managedCluster])
          | None => ((Result_zero, None), managedCluster, [EvUpdate managedCluster])
          end
        else ((Result_zero, None), managedCluster, [])
      else ((Result_zero, Some err), managedCluster, [])
  | Ok _ =>
      let ev1 := [EvDeleteHelmRelease (Name managedCluster) (Namespace managedCluster)] in
      match helm_DeleteHelmRelease r (Name managedCluster) (Namespace managedCluster) with
      | Some err => ((Result_zero, Some err), managedCluster, ev1)
      | None =>
          let ev2 := [EvDeleteProfile (Namespace managedCluster) (Name managedCluster)] in
          match sveltos_DeleteProfile r (Namespace managedCluster) (Name managedCluster) with
          | Some err => ((Result_zero, Some err), managedCluster, (ev1 ++ ev2)%list)
          | None =>
              match releaseCluster r (Namespace managedCluster) (Name managedCluster)
                      (Spec_Template managedCluster) with
              | (Some err, ev3) =>
                  ((Result_zero, Some err), managedCluster, (ev1 ++ ev2 ++ ev3)%list)
              | (None, ev3) =>
                  ((mkResult false DefaultRequeueInterval, None), managedCluster,
                   (ev1 ++ ev2 ++ ev3)%list)
              end
          end
      end
  end.

(** ** Credential propagation *)

Definition credentialsPropagated (status : ConditionStatus) (reason message : string)
  : Condition :=
  mkCondition CredentialsPropagatedCondition status reason message.

(** The [for]/[switch] of [reconcileCredentialPropagation].  [propnCfg]
    holds a pointer to the object, so each routine is handed the object as
    it is when the routine is called. *)
Fixpoint propagateProviders (r : ManagedClusterReconciler) (kubeconfSecret : string)
    (providers : list string) (managedCluster : ManagedCluster)
  : option error * ManagedCluster * list Event :=
  match providers with
  | [] => (None, managedCluster, [])
  | provider :: rest =>
      let propnCfg := mkPropagationCfg managedCluster kubeconfSecret (SystemNamespace r) in
      if bool_decide (provider = "aws") then
        propagateProviders r kubeconfSecret rest managedCluster
      else if bool_decide (provider = "azure") then
        match credspropagation_PropagateAzureSecrets r propnCfg with
        | Some err =>
            let errMsg := "failed to create Azure CCM credentials: " +:+ Error err in
            (Some (errors_New errMsg),
             setCondition (credentialsPropagated ConditionFalse FailedReason errMsg)
               managedCluster,
             [EvPropagateAzureSecrets propnCfg])
        | None =>
            let managedCluster :=
              setCondition (credentialsPropagated ConditionTrue SucceededReason
                              "Azure CCM credentials created") managedCluster in
            let '(err, managedCluster, evs) :=
              propagateProviders r kubeconfSecret rest managedCluster in
            (err, managedCluster, EvPropagateAzureSecrets propnCfg :: evs)
        end
      else if bool_decide (provider = "vsphere") then
        match credspropagation_PropagateVSphereSecrets r propnCfg with
        | Some err =>
            let errMsg := "failed to create vSphere CCM credentials: " +:+ Error err in
            (Some (errors_New errMsg),
             setCondition (credentialsPropagated ConditionFalse FailedReason errMsg)
               managedCluster,
             [EvPropagateVSphereSecrets propnCfg])
        | None =>
            let managedCluster :=
              setCondition (credentialsPropagated ConditionTrue SucceededReason
                              "vSphere CCM credentials created") managedCluster in
            let '(err, managedCluster, evs) :=
              propagateProviders r kubeconfSecret rest managedCluster in
            (err, managedCluster, EvPropagateVSphereSecrets propnCfg :: evs)
        end
      else
        propagateProviders r kubeconfSecret rest
          (setCondition (credentialsPropagated ConditionFalse FailedReason
                           ("unsupported infrastructure provider " +:+ provider))
             managedCluster)
  end.

Definition reconcileCredentialPropagation (r : ManagedClusterReconciler)
    (managedCluster : ManagedCluster) : option error * ManagedCluster * list Event :=
  match getInfraProvidersNames r (Namespace managedCluster) (Spec_Template managedCluster) with
  | Err err =>
      (Some (Errorf_w ("failed to get cluster providers for cluster "
                       +:+ nsName (Namespace managedCluster) (Name managedCluster) +:+ ": ")
               err),
       managedCluster, [])
  | Ok providers =>
      match Get_Secret r (Namespace managedCluster) (Name managedCluster +:+ "-kubeconfig") with
      | Err err =>
          (Some (Errorf_w ("failed to get kubeconfig secret for cluster "
                           +:+ nsName (Namespace managedCluster) (Name managedCluster)
                           +:+ ": ") err),
           managedCluster, [])
      | Ok kubeconfSecret => propagateProviders r kubeconfSecret providers managedCluster
      end
  end.

(** ** The update path *)

(** [setIdentityHelmValues]: [values] is [Spec.Config], which may be nil. *)
Definition setIdentityHelmValues (values : option JSON) (idRef : option ObjectReference)
  : Outcome (result JSON) :=
  match values with
  | None => Panicked "invalid memory address or nil pointer dereference"
  | Some (JSONRejected why) =>
      Returned (Err (errors_New ("error unmarshalling values: " +:+ why)))
  | Some JSONNull => Panicked "assignment to entry in nil map"
  | Some (JSONObject valuesJSON) =>
      Returned (Ok (JSONObject (<["clusterIdentity" := IdentityRef idRef]> valuesJSON)))
  end.

Definition validateReleaseWithValues (r : ManagedClusterReconciler)
    (managedCluster : ManagedCluster) (hcChart : string) : option error :=
  match HelmValues r managedCluster with
  | Err err => Some err
  | Ok vals => helm_InstallRun r (Name managedCluster) (Namespace managedCluster) hcChart vals
  end.

Definition getSource (r : ManagedClusterReconciler) (ref : option ChartRef)
  : result (option string) :=
  match ref with
  | None => Err (errors_New "helm chart source is not provided")
  | Some ref => Get_HelmChart r (cr_Namespace ref) (cr_Name ref)
  end.

(** The loop of [setStatusFromClusterStatus]. *)
Definition mirrorConditions (resourceConditions : list Condition)
    (managedCluster : ManagedCluster) : bool * ManagedCluster :=
  foldl (λ '(allConditionsComplete, managedCluster) metaCondition,
           let allConditionsComplete :=
             if bool_decide (cStatus metaCondition ≠ ConditionTrue) then false
             else allConditionsComplete in
           let metaCondition :=
             if bool_decide (cReason metaCondition = "")
                && bool_decide (cStatus metaCondition = ConditionTrue)
             then mkCondition (cType metaCondition) (cStatus metaCondition)
                    "Succeeded" (cMessage metaCondition)
             else metaCondition in
           (allConditionsComplete, setCondition metaCondition managedCluster))
        (true, managedCluster) resourceConditions.

Definition setStatusFromClusterStatus (r : ManagedClusterReconciler)
    (managedCluster : ManagedCluster) : (bool * option error) * ManagedCluster :=
  match GetResourceConditions r (Namespace managedCluster) (Name managedCluster) with
  | Err err =>
      if IsResourceNotFound err then ((true, None), managedCluster)
      else ((false, Some (Errorf_w "failed to get conditions: " err)), managedCluster)
  | Ok resourceConditions =>
      let '(allConditionsComplete, managedCluster) :=
        mirrorConditions resourceConditions managedCluster in
      ((negb allConditionsComplete, None), managedCluster)
  end.

Definition updateServices (r : ManagedClusterReconciler) (mc : ManagedCluster)
  : (Result * option error) * list Event :=
  match helmChartOpts r (Namespace mc) (Spec_Services mc) with
  | Err err => ((Result_zero, Some err), [])
  | Ok opts =>
      let profileOpts :=
        mkReconcileProfileOpts (ownerOf mc)
          [(FluxHelmChartNamespaceKey, Namespace mc); (FluxHelmChartNameKey, Name mc)]
          opts (Spec_ServicesPriority mc) (Spec_StopOnConflict mc) in
      let ev := [EvReconcileProfile (Namespace mc) (Name mc) profileOpts] in
      match sveltos_ReconcileProfile r (Namespace mc) (Name mc) profileOpts with
      | Some err => ((Result_zero, Some (Errorf_w "failed to reconcile Profile: " err)), ev)
      | None => ((mkResult false DefaultRequeueInterval, None), ev)
      end
  end.

Definition templateReady (status : ConditionStatus) (reason message : string) : Condition :=
  mkCondition TemplateReadyCondition status reason message.
Definition helmChartReady (status : ConditionStatus) (reason message : string) : Condition :=
  mkCondition HelmChartReadyCondition status reason message.
Definition credentialReady (status : ConditionStatus) (reason message : string) : Condition :=
  mkCondition CredentialReadyCondition status reason message.
Definition helmReleaseReady (status : ConditionStatus) (reason message : string) : Condition :=
  mkCondition HelmReleaseReadyCondition status reason message.

(** What one run of a function body yields: how it ended, the [template]
    variable as it leaves it, the object, and the requests it sent. *)
Definition BodyResult : Type :=
  Outcome (Result * option error) * ClusterTemplate * ManagedCluster * list Event.

(** [Update], the non-dry-run branch: from [setIdentityHelmValues] to
    [updateServices]. *)
Definition updateRelease (r : ManagedClusterReconciler) (template : ClusterTemplate)
    (cred : Credential) (managedCluster : ManagedCluster) : BodyResult :=
  match setIdentityHelmValues (Spec_Config managedCluster) (cred_IdentityRef cred) with
  | Panicked why => (Panicked why, template, managedCluster, [])
  | Returned (Err err) =>
      (Returned (Result_zero, Some (Errorf_s "error setting identity values: " err)),
       template, managedCluster, [])
  | Returned (Ok helmValues) =>
      let opts :=
        mkReconcileHelmReleaseOpts helmValues (ownerOf managedCluster) (t_ChartRef template) in
      let ev := [EvReconcileHelmRelease (Name managedCluster) (Namespace managedCluster) opts] in
      match helm_ReconcileHelmRelease r (Name managedCluster) (Namespace managedCluster) opts with
      | Err err =>
          (Returned (Result_zero, Some err), template,
           setCondition (helmReleaseReady ConditionFalse FailedReason (Error err)) managedCluster,
           ev)
      | Ok hr =>
          let managedCluster :=
            match fluxconditions_Get hr fluxmeta_ReadyCondition with
            | Some hrReadyCondition =>
                setCondition (helmReleaseReady (cStatus hrReadyCondition)
                                (cReason hrReadyCondition) (cMessage hrReadyCondition))
                  managedCluster
            | None => managedCluster
            end in
          match setStatusFromClusterStatus r managedCluster with
          | ((requeue, Some err), managedCluster) =>
              if requeue
              then (Returned (mkResult false DefaultRequeueInterval, Some err),
                    template, managedCluster, ev)
              else (Returned (Result_zero, Some err), template, managedCluster, ev)
          | ((requeue, None), managedCluster) =>
              if requeue
              then (Returned (mkResult false DefaultRequeueInterval, None),
                    template, managedCluster, ev)
              else if negb (fluxconditions_IsReady hr)
              then (Returned (mkResult false DefaultRequeueInterval, None),
                    template, managedCluster, ev)
              else
                match reconcileCredentialPropagation r managedCluster with
                | (Some err, managedCluster, evs) =>
                    (Returned (Result_zero, Some err), template, managedCluster,
                     (ev ++ evs)%list)
                | (None, managedCluster, evs) =>
                    let '(res, evs') := updateServices r managedCluster in
                    (Returned res, template, managedCluster, (ev ++ evs ++ evs')%list)
                end
          end
      end
  end.

(** [Update], from the credential lookup on. *)
Definition updateCredential (r : ManagedClusterReconciler) (template : ClusterTemplate)
    (managedCluster : ManagedCluster) : BodyResult :=
  match Get_Credential r (Namespace managedCluster) (Spec_Credential managedCluster) with
  | Err err =>
      (Returned (Result_zero, Some err), template,
       setCondition (credentialReady ConditionFalse FailedReason
                       ("Failed to get Credential: " +:+ Error err)) managedCluster,
       [])
  | Ok cred =>
      let managedCluster :=
        if bool_decide (cred_State cred ≠ CredentialReady)
        then setCondition (credentialReady ConditionFalse FailedReason
                             "Credential is not in Ready state") managedCluster
        else managedCluster in
      let managedCluster :=
        setCondition (credentialReady ConditionTrue SucceededReason "Credential is Ready")
          managedCluster in
      if negb (Spec_DryRun managedCluster)
      then updateRelease r template cred managedCluster
      else (Returned (Result_zero, None), template, managedCluster, [])
  end.

(** [Update], from the chart source lookup on. *)
Definition updateChart (r : ManagedClusterReconciler) (template : ClusterTemplate)
    (managedCluster : ManagedCluster) : BodyResult :=
  match getSource r (t_ChartRef template) with
  | Err err =>
      (Returned (Result_zero, Some err), template,
       setCondition (helmChartReady ConditionFalse FailedReason
                       ("failed to get helm chart source: " +:+ Error err)) managedCluster,
       [])
  | Ok artifact =>
      match helm_DownloadChartFromArtifact r artifact with
      | Err err =>
          (Returned (Result_zero, Some err), template,
           setCondition (helmChartReady ConditionFalse FailedReason
                           ("failed to download helm chart: " +:+ Error err)) managedCluster,
           [])
      | Ok hcChart =>
          match helm_ActionConfigInit r (Namespace managedCluster) with
          | Some err => (Returned (Result_zero, Some err), template, managedCluster, [])
          | None =>
              match validateReleaseWithValues r managedCluster hcChart with
              | Some err =>
                  (Returned (Result_zero, Some err), template,
                   setCondition
                     (helmChartReady ConditionFalse FailedReason
                        ("failed to validate template with provided configuration: "
                         +:+ Error err)) managedCluster,
                   [])
              | None =>
                  updateCredential r template
                    (setCondition (helmChartReady ConditionTrue SucceededReason
                                     "Helm chart is valid") managedCluster)
              end
          end
      end
  end.

(** [Update], from the template lookup on: everything that runs under the
    deferred [updateStatus]. *)
Definition updateTemplate (r : ManagedClusterReconciler) (managedCluster : ManagedCluster)
  : BodyResult :=
  match Get_ClusterTemplate r (Namespace managedCluster) (Spec_Template managedCluster) with
  | Err err =>
      let errMsg :=
        if IsNotFound err then "provided template is not found"
        else "failed to get provided template: " +:+ Error err in
      (Returned (Result_zero, Some err), ClusterTemplate_zero,
       setCondition (templateReady ConditionFalse FailedReason errMsg) managedCluster, [])
  | Ok template =>
      if negb (t_Valid template) then
        let errMsg := "provided template is not marked as valid" in
        (Returned (Result_zero, Some (errors_New errMsg)), template,
         setCondition (templateReady ConditionFalse FailedReason errMsg) managedCluster, [])
      else
        let managedCluster :=
          SetKubernetesVersion (t_KubernetesVersion template) managedCluster in
        let managedCluster :=
          setCondition (templateReady ConditionTrue SucceededReason "Template is valid")
            managedCluster in
        updateChart r template managedCluster
  end.

Definition Update (r : ManagedClusterReconciler) (managedCluster : ManagedCluster)
  : Outcome (Result * option error) * ManagedCluster * list Event :=
  let '(finalizers, added) := AddFinalizer (Finalizers managedCluster) ManagedClusterFinalizer in
  if added then
    let managedCluster := SetFinalizers finalizers managedCluster in
    match Client_Update r managedCluster with
    | Some err =>
        (Returned (Result_zero,
                   Some (Errorf_w ("failed to update managedCluster "
                                   +:+ nsName (Namespace managedCluster) (Name managedCluster)
                                   +:+ ": ") err)),
         managedCluster, [EvUpdate managedCluster])
    | None => (Returned (Result_zero, None), managedCluster, [EvUpdate managedCluster])
    end
  else
    let managedCluster :=
      if bool_decide (length (Status_Conditions managedCluster) = 0%nat)
      then SetConditions (InitConditions r managedCluster) managedCluster
      else managedCluster in
    let '(outcome, template, managedCluster, evs) := updateTemplate r managedCluster in
    (* the deferred call runs on every way out, a panic included *)
    let '(statusErr, managedCluster, evs') := updateStatus r managedCluster template in
    let outcome :=
      match outcome with
      | Returned (result, err) => Returned (result, errors_Join err statusErr)
      | Panicked why => Panicked why
      end in
    (outcome, managedCluster, (evs ++ evs')%list).

Definition Reconcile (r : ManagedClusterReconciler) (namespace name : string)
  : Outcome (Result * option error) * option ManagedCluster * list Event :=
  match Get_ManagedCluster r namespace name with
  | Err err =>
      if IsNotFound err then (Returned (Result_zero, None), None, [])
      else (Returned (Result_zero, Some err), None, [])
  | Ok managedCluster =>
      if Deleting managedCluster then
        let '(res, managedCluster, evs) := Delete r managedCluster in
        (Returned res, Some managedCluster, evs)
      else if bool_decide (Status_ObservedGeneration managedCluster = 0) then
        match Get_Management r with
        | Err err => (Returned (Result_zero, Some err), Some managedCluster, [])
        | Ok mgmtUID =>
            let ev :=
              EvTrackManagedClusterCreate mgmtUID (UID managedCluster)
                (Spec_Template managedCluster) (Spec_DryRun managedCluster) in
            let '(outcome, managedCluster, evs) := Update r managedCluster in
            (outcome, Some managedCluster, ev :: evs)
        end
      else
        let '(outcome, managedCluster, evs) := Update r managedCluster in
        (outcome, Some managedCluster, evs)
  end.

(** ** Sample objects and collaborators

    A reconciler whose collaborators all answer successfully, apart from
    the answers given as arguments; used to run the functions above on
    concrete inputs. *)

Definition notFound (what : string) : error := ErrLeaf ApiNotFound (what +:+ " not found").

Definition sampleChartRef : ChartRef := mkChartRef "HelmChart" "hmc-system" "aws-standalone-cp".

Definition sampleTemplate (valid : bool) (providers : list string) : ClusterTemplate :=
  mkClusterTemplate "default" "aws-standalone-cp-0-0-1" valid "v1.30.4"
    (Some sampleChartRef) providers.

Definition sampleIdentity : ObjectReference :=
  mkObjectReference "infrastructure.cluster.x-k8s.io/v1beta2" "AWSClusterStaticIdentity"
    "hmc-system" "aws-cluster-identity".

Definition sampleCredential (state : string) : Credential :=
  mkCredential (Some sampleIdentity) state.

Definition readyRelease : HelmRelease :=
  mkHelmRelease [mkCondition "Ready" ConditionTrue "InstallSucceeded" "Helm install succeeded"].

Definition sampleConfig : gmap string GoValue :=
  <["region" := Decoded "us-east-2"]> (<["clusterIdentity" := Decoded "mine"]> ∅).

Definition sampleCluster (finalizers : list string) (conditions : list Condition)
    (dryRun : bool) : ManagedCluster :=
  mkManagedCluster "default" "dev" "uid-1" 1 false finalizers
    "aws-standalone-cp-0-0-1" "aws-cred" (Some (JSONObject sampleConfig)) dryRun [] 0 false
    1 conditions "" [].

(** A workload object (an [AWSCluster] or [AzureCluster]) of the sample cluster. *)
Definition sampleWorkload (finalizers : list string) : PartialObjectMetadata :=
  mkPartialObjectMetadata "default" "dev" finalizers.
Definition sampleMachine : PartialObjectMetadata :=
  mkPartialObjectMetadata "default" "dev-cp-0" [].

Definition sampleReconciler
    (template : result ClusterTemplate) (cred : result Credential)
    (release : result HelmRelease)
    (workloads machines : list PartialObjectMetadata)
    (azure vsphere : option error)
    (chains : list ClusterTemplateChain) : ManagedClusterReconciler :=
  {| SystemNamespace := "hmc-system";
     Get_ManagedCluster := λ _ _, Err (notFound "managedcluster");
     Get_Management := Ok "mgmt-uid";
     Get_ClusterTemplate := λ _ _, template;
     Get_HelmChart := λ _ _, Ok (Some "artifact");
     Get_Credential := λ _ _, cred;
     Get_Secret := λ _ name, Ok name;
     Get_HelmRelease := λ _ _, release;
     List_ClusterTemplateChains := λ _ _, Ok chains;
     List_PartialObjectMetadata := λ gvk _ _ _,
       if bool_decide (gvk = gvkMachine) then Ok machines else Ok workloads;
     Client_Update := λ _, None;
     Status_Update := λ _, None;
     Client_Patch := λ _, None;
     GetResourceConditions := λ _ _, Ok [];
     InitConditions := λ _, [];
     HelmValues := λ _, Ok ∅;
     helm_DownloadChartFromArtifact := λ _, Ok "chart";
     helm_ActionConfigInit := λ _, None;
     helm_InstallRun := λ _ _ _ _, None;
     helm_ReconcileHelmRelease := λ _ _ _, release;
     helm_DeleteHelmRelease := λ _ _, None;
     sveltos_ReconcileProfile := λ _ _ _, None;
     sveltos_DeleteProfile := λ _ _, None;
     helmChartOpts := λ _ _, Ok [];
     credspropagation_PropagateAzureSecrets := λ _, azure;
     credspropagation_PropagateVSphereSecrets := λ _, vsphere |}.

(** ** The Condition Ledger's rule, as the specification words it *)

(** The messages of the given conditions one after the other, each closed
    by a full stop and a space. *)
Definition joinMessages (conditions : list Condition) : string :=
  foldr (λ c rest, cMessage c +:+ ". " +:+ rest) "" conditions.

(** The conditions other than the umbrella one that have the given status. *)
Definition othersWith (status : ConditionStatus) (conditions : list Condition)
  : list Condition :=
  filter (λ c, cType c ≠ ReadyCondition ∧ cStatus c = status) conditions.

Definition umbrellaReady (conditions : list Condition) : Condition :=
  if bool_decide (othersWith ConditionFalse conditions ≠ [])
  then mkCondition ReadyCondition ConditionFalse FailedReason
         (joinMessages (othersWith ConditionFalse conditions))
  else if bool_decide (othersWith ConditionUnknown conditions ≠ [])
  then mkCondition ReadyCondition ConditionUnknown ProgressingReason
         (joinMessages (othersWith ConditionUnknown conditions))
  else mkCondition ReadyCondition ConditionTrue SucceededReason "ManagedCluster is ready".

(** ** The Upgrade Graph Resolver, as the specification words it *)



Definition sampleChains : list ClusterTemplateChain :=
  [ mkClusterTemplateChain "aws"
      [ mkSupportedTemplate "aws-standalone-cp-0-0-1"
          [ mkAvailableUpgrade "aws-standalone-cp-0-0-2";
            mkAvailableUpgrade "aws-standalone-cp-0-0-3" ];
        mkSupportedTemplate "aws-standalone-cp-0-0-2"
          [ mkAvailableUpgrade "aws-standalone-cp-0-0-3" ] ];
    mkClusterTemplateChain "aws-next"
      [ mkSupportedTemplate "aws-standalone-cp-0-0-1"
          [ mkAvailableUpgrade "aws-standalone-cp-0-0-3" ] ] ].

(** ** Requests of a pass *)

Definition isReleaseUpsert (ev : Event) : bool :=
  match ev with EvReconcileHelmRelease _ _ _ => true | _ => false end.

Definition noReleaseUpsert (evs : list Event) : Prop :=
  Forall (λ ev, isReleaseUpsert ev = false) evs.

(** The values [updateRelease] hands to the release upsert. *)
Definition identityValues (cfg : gmap string GoValue) (cred : Credential)
  : gmap string GoValue :=
  <["clusterIdentity" := IdentityRef (cred_IdentityRef cred)]> cfg.

(** ** The ledger a pass starts from *)

(** The conditions [Update] works on: those of the object, or what
    [InitConditions] leaves when the object has none. *)
Definition ledgerOnEntry (r : ManagedClusterReconciler) (mc : ManagedCluster)
  : list Condition :=
  if bool_decide (length (Status_Conditions mc) = 0%nat)
  then InitConditions r mc else Status_Conditions mc.



(** The sample cluster once its deletion is requested. *)
Definition sampleDeletingCluster (finalizers : list string) : ManagedCluster :=
  mkManagedCluster "default" "dev" "uid-1" 2 true finalizers
    "aws-standalone-cp-0-0-1" "aws-cred" (Some (JSONObject sampleConfig)) false [] 0 false
    1 [] "v1.30.4" [].

(** ** Mirrored workload conditions *)

(** A condition of the workload as [setStatusFromClusterStatus] stores it:
    a True condition without a reason gets the reason "Succeeded". *)
Definition mirrored (c : Condition) : Condition :=
  if bool_decide (cReason c = "") && bool_decide (cStatus c = ConditionTrue)
  then mkCondition (cType c) (cStatus c) "Succeeded" (cMessage c)
  else c.

(** ** What a pass may change, and what it may send *)

(** The object without its status: what [Update] must leave alone, apart
    from the finalizer list. *)
Definition withoutStatus (mc : ManagedCluster) : ManagedCluster :=
  mkManagedCluster (Namespace mc) (Name mc) (UID mc) (Generation mc) (Deleting mc)
    (Finalizers mc) (Spec_Template mc) (Spec_Credential mc) (Spec_Config mc)
    (Spec_DryRun mc) (Spec_Services mc) (Spec_ServicesPriority mc)
    (Spec_StopOnConflict mc) 0 [] "" [].

(** The requests of the update path that go to the release engine, the
    propagation routines and the profile service. *)
Definition isBodyRequest (ev : Event) : bool :=
  match ev with
  | EvReconcileHelmRelease _ _ _ | EvPropagateAzureSecrets _
  | EvPropagateVSphereSecrets _ | EvReconcileProfile _ _ _ => true
  | _ => false
  end.

(** The requests that only a pass with a Ready release sends. *)
Definition isLateRequest (ev : Event) : bool :=
  match ev with
  | EvPropagateAzureSecrets _ | EvPropagateVSphereSecrets _
  | EvReconcileProfile _ _ _ => true
  | _ => false
  end.

(** The requests of the teardown: release and profile deletion, and the
    patch of a provider's workload. *)
Definition isTeardownRequest (ev : Event) : bool :=
  match ev with
  | EvDeleteHelmRelease _ _ | EvDeleteProfile _ _ | EvPatchCluster _ => true
  | _ => false
  end.

(** The provider whose propagation routine a request invokes. *)
Definition routineOf (ev : Event) : option string :=
  match ev with
  | EvPropagateAzureSecrets _ => Some "azure"
  | EvPropagateVSphereSecrets _ => Some "vsphere"
  | _ => None
  end.

(** The configuration bundle of a propagation request. *)
Definition propagationCfgOf (ev : Event) : option PropagationCfg :=
  match ev with
  | EvPropagateAzureSecrets cfg | EvPropagateVSphereSecrets cfg => Some cfg
  | _ => None
  end.

(** A workload object without the blocking finalizer. *)
Definition unblocked (cluster : PartialObjectMetadata) : PartialObjectMetadata :=
  mkPartialObjectMetadata (pom_Namespace cluster) (pom_Name cluster)
    (filter (λ f, f ≠ BlockingFinalizer) (pom_Finalizers cluster)).

(** The providers that have a propagation routine. *)
Definition routineProviders : list string := ["azure"; "vsphere"].

(** ** Watches ([SetupWithManager]) *)

(** A reconcile request: the namespace and the name of a ManagedCluster. *)
Definition Request : Type := string * string.

(** The loop of the map function of the ClusterTemplateChain watch.
    [templates] is what [getTemplateNamesManagedByChain] gives for the chain
    (the function is not among the sources), and [listManagedClusters
    namespace template] is the answer to the listing of the ManagedClusters
    of the namespace that use the template. *)
Fixpoint chainRequestsFrom
    (listManagedClusters : string → string → result (list ManagedCluster))
    (chainNamespace : string) (templates : list string) (req : list Request)
  : list Request :=
  match templates with
  | [] => req
  | template :: rest =>
      match listManagedClusters chainNamespace template with
      | Err _ => []
      | Ok managedClusters =>
          chainRequestsFrom listManagedClusters chainNamespace rest
            (req ++ ((λ cluster, (Namespace cluster, Name cluster)) <$> managedClusters))%list
      end
  end.

Definition chainRequests
    (listManagedClusters : string → string → result (list ManagedCluster))
    (chainNamespace : string) (templates : list string) : list Request :=
  chainRequestsFrom listManagedClusters chainNamespace templates [].

(** ** The release poller *)

(** Constants of the package and of api/v1alpha1 that the poller uses; they
    are declared in files that are not among the sources. *)
Record PollerConstants := mkPollerConstants {
  defaultRepoName : string;
  defaultRepoType : string;
  defaultReconcileInterval : Duration;
  TemplatesNamespace : string;
  ManagementName : string;
  ManagementNamespace : string;
  HMCManagedLabelKey : string;
  build_Version : string;
  HelmRepositoryKind : string
}.

Definition hmcTemplatesReleaseName : string := "hmc-templates".

(** [sourcev1.HelmRepositorySpec]: the fields the poller sets, and
    [repoSpec_Rest] for all the others (empty when they are zero). *)
Record HelmRepositorySpec := mkHelmRepositorySpec {
  repoSpec_Type : string;
  repoSpec_URL : string;
  repoSpec_Interval : Duration;
  repoSpec_Insecure : bool;
  repoSpec_SecretRef : option string;
  repoSpec_Rest : string
}.

#[global] Instance HelmRepositorySpec_eq_dec : EqDecision HelmRepositorySpec.
Proof. solve_decision. Defined.

(** [sourcev1.HelmRepository]; [repo_Rest] stands for the metadata and
    status the poller does not touch. *)
Record HelmRepository := mkHelmRepository {
  repo_Namespace : string;
  repo_Name : string;
  repo_Spec : HelmRepositorySpec;
  repo_Rest : string
}.

#[global] Instance HelmRepository_eq_dec : EqDecision HelmRepository.
Proof. solve_decision. Defined.

(** [sourcev1.HelmChartSpec] and [sourcev1.HelmChart], in the same way. *)
Record HelmChartSpec := mkHelmChartSpec {
  chartSpec_Chart : string;
  chartSpec_Version : string;
  chartSpec_SourceRefKind : string;
  chartSpec_SourceRefName : string;
  chartSpec_Interval : Duration;
  chartSpec_Rest : string
}.

#[global] Instance HelmChartSpec_eq_dec : EqDecision HelmChartSpec.
Proof. solve_decision. Defined.

Record HelmChart := mkHelmChart {
  chart_Kind : string;
  chart_Namespace : string;
  chart_Name : string;
  chart_Labels : gmap string string;
  chart_Spec : HelmChartSpec;
  chart_Rest : string
}.

#[global] Instance HelmChart_eq_dec : EqDecision HelmChart.
Proof. solve_decision. Defined.

(** [controllerutil.OperationResult] *)
Inductive OperationResult :=
| OperationResultNone
| OperationResultCreated
| OperationResultUpdated.

(** The writes the poller requests. *)
Inductive PollerEvent :=
| PEvCreateHelmRepository (o : HelmRepository)
| PEvUpdateHelmRepository (o : HelmRepository)
| PEvCreateHelmChart (o : HelmChart)
| PEvUpdateHelmChart (o : HelmChart)
| PEvReconcileHelmRelease (name namespace : string) (chartRef : ChartRef)
    (interval : Duration)
| PEvCreateManagement (namespace name : string).

(** [Poller]: its settings, and what the collaborators answer during one
    tick. *)
Record Poller := mkPoller {
  CreateManagement : bool;
  CreateTemplates : bool;
  DefaultOCIRegistry : string;
  RegistryCredentialsSecret : string;
  InsecureRegistry : bool;
  HMCTemplatesChartName : string;
  p_Get_HelmRepository : string → string → result HelmRepository;
  p_Create_HelmRepository : HelmRepository → option error;
  p_Update_HelmRepository : HelmRepository → option error;
  p_Get_HelmChart : string → string → result HelmChart;
  p_Create_HelmChart : HelmChart → option error;
  p_Update_HelmChart : HelmChart → option error;
  p_helm_ArtifactReady : HelmChart → option error;
  p_helm_ReconcileHelmRelease :
    string → string → ChartRef → Duration → result OperationResult;
  p_Get_Management : string → string → option error;
  p_Create_Management : string → string → option error
}.

(** [ctrl.CreateOrUpdate] of controller-runtime (a library the poller
    calls; written after its documented behaviour): read the object; when it is not found, mutate
    the given object and create it; otherwise mutate what was read and
    update it unless the mutation changed nothing.  The result, the object
    as the caller holds it afterwards (the answer to a write is taken to be
    the object that was sent), and the write requested. *)
Definition CreateOrUpdate {A : Type} `{EqDecision A}
    (get : result A) (create update : A → option error)
    (created updated : A → PollerEvent) (obj : A) (mutate : A → A)
  : result OperationResult * A * list PollerEvent :=
  match get with
  | Err err =>
      if IsNotFound err then
        let obj := mutate obj in
        match create obj with
        | Some err => (Err err, obj, [created obj])
        | None => (Ok OperationResultCreated, obj, [created obj])
        end
      else (Err err, obj, [])
  | Ok existing =>
      let obj := mutate existing in
      if bool_decide (existing = obj) then (Ok OperationResultNone, obj, [])
      else
        match update obj with
        | Some err => (Err err, obj, [updated obj])
        | None => (Ok OperationResultUpdated, obj, [updated obj])
        end
  end.

(** The specification [reconcileDefaultHelmRepo] gives the repository. *)
Definition defaultHelmRepoSpec (k : PollerConstants) (p : Poller) : HelmRepositorySpec :=
  let spec :=
    mkHelmRepositorySpec (defaultRepoType k) (DefaultOCIRegistry p)
      (defaultReconcileInterval k) (InsecureRegistry p) None "" in
  if bool_decide (RegistryCredentialsSecret p ≠ "")
  then mkHelmRepositorySpec (repoSpec_Type spec) (repoSpec_URL spec)
         (repoSpec_Interval spec) (repoSpec_Insecure spec)
         (Some (RegistryCredentialsSecret p)) (repoSpec_Rest spec)
  else spec.

Definition reconcileDefaultHelmRepo (k : PollerConstants) (p : Poller)
  : option error * list PollerEvent :=
  let helmRepo :=
    mkHelmRepository (TemplatesNamespace k) (defaultRepoName k)
      (mkHelmRepositorySpec "" "" 0 false None "") "" in
  let '(operation, _, evs) :=
    CreateOrUpdate (p_Get_HelmRepository p (TemplatesNamespace k) (defaultRepoName k))
      (p_Create_HelmRepository p) (p_Update_HelmRepository p)
      PEvCreateHelmRepository PEvUpdateHelmRepository helmRepo
      (λ helmRepo,
         mkHelmRepository (repo_Namespace helmRepo) (repo_Name helmRepo)
           (defaultHelmRepoSpec k p) (repo_Rest helmRepo)) in
  match operation with
  | Err err => (Some err, evs)
  | Ok _ => (None, evs)
  end.

Definition reconcileHMCTemplates (k : PollerConstants) (p : Poller)
  : option error * list PollerEvent :=
  if negb (CreateTemplates p) then (None, [])
  else
    let helmChart :=
      mkHelmChart "" (TemplatesNamespace k) (HMCTemplatesChartName p) ∅
        (mkHelmChartSpec "" "" "" "" 0 "") "" in
    let '(operation, helmChart, evs) :=
      CreateOrUpdate (p_Get_HelmChart p (TemplatesNamespace k) (HMCTemplatesChartName p))
        (p_Create_HelmChart p) (p_Update_HelmChart p)
        PEvCreateHelmChart PEvUpdateHelmChart helmChart
        (λ helmChart,
           mkHelmChart (chart_Kind helmChart) (chart_Namespace helmChart)
             (chart_Name helmChart)
             (<[HMCManagedLabelKey k := "true"]> (chart_Labels helmChart))
             (mkHelmChartSpec (HMCTemplatesChartName p) (build_Version k)
                (HelmRepositoryKind k) (defaultRepoName k)
                (defaultReconcileInterval k) "")
             (chart_Rest helmChart)) in
    match operation with
    | Err err => (Some err, evs)
    | Ok _ =>
        match p_helm_ArtifactReady p helmChart with
        | Some err =>
            (Some (Errorf_w ("HelmChart " +:+ nsName (TemplatesNamespace k)
                                                (HMCTemplatesChartName p)
                             +:+ " Artifact is not ready: ") err),
             evs)
        | None =>
            let chartRef :=
              mkChartRef (chart_Kind helmChart) (chart_Namespace helmChart)
                (chart_Name helmChart) in
            let ev :=
              PEvReconcileHelmRelease hmcTemplatesReleaseName (TemplatesNamespace k)
                chartRef (defaultReconcileInterval k) in
            match p_helm_ReconcileHelmRelease p hmcTemplatesReleaseName
                    (TemplatesNamespace k) chartRef (defaultReconcileInterval k) with
            | Err err => (Some err, (evs ++ [ev])%list)
            | Ok _ => (None, (evs ++ [ev])%list)
            end
        end
    end.

Definition ensureManagement (k : PollerConstants) (p : Poller)
  : option error * list PollerEvent :=
  if negb (CreateManagement p) then (None, [])
  else
    match p_Get_Management p (ManagementNamespace k) (ManagementName k) with
    | Some err =>
        if negb (IsNotFound err) then
          (Some (errors_New ("failed to get "
                             +:+ nsName (ManagementNamespace k) (ManagementName k)
                             +:+ " Management object")), [])
        else
          let ev := PEvCreateManagement (ManagementNamespace k) (ManagementName k) in
          match p_Create_Management p (ManagementNamespace k) (ManagementName k) with
          | Some _ =>
              (Some (errors_New ("failed to create "
                                 +:+ nsName (ManagementNamespace k) (ManagementName k)
                                 +:+ " Management object")), [ev])
          | None => (None, [ev])
          end
    | None => (None, [])
    end.

Definition Tick (k : PollerConstants) (p : Poller) : option error * list PollerEvent :=
  match reconcileDefaultHelmRepo k p with
  | (Some err, evs) => (Some err, evs)
  | (None, evs) =>
      match reconcileHMCTemplates k p with
      | (Some err, evs') => (Some err, (evs ++ evs')%list)
      | (None, evs') =>
          match ensureManagement k p with
          | (Some err, evs'') => (Some err, (evs ++ evs' ++ evs'')%list)
          | (None, evs'') => (None, (evs ++ evs' ++ evs'')%list)
          end
      end
  end.

(** The requests of a tick, by the step that sends them. *)
Definition isHelmRepositoryWrite (ev : PollerEvent) : bool :=
  match ev with
  | PEvCreateHelmRepository _ | PEvUpdateHelmRepository _ => true
  | _ => false
  end.

Definition isTemplatesRequest (ev : PollerEvent) : bool :=
  match ev with
  | PEvCreateHelmChart _ | PEvUpdateHelmChart _ | PEvReconcileHelmRelease _ _ _ _ => true
  | _ => false
  end.

Definition isManagementCreate (ev : PollerEvent) : bool :=
  match ev with
  | PEvCreateManagement _ _ => true
  | _ => false
  end.

(** The chart specification [reconcileHMCTemplates] asks for. *)
Definition templatesChartSpec (k : PollerConstants) (p : Poller) : HelmChartSpec :=
  mkHelmChartSpec (HMCTemplatesChartName p) (build_Version k)
    (HelmRepositoryKind k) (defaultRepoName k) (defaultReconcileInterval k) "".

(** ** More sample objects *)

(** The sample reconciler with every collaborator answering successfully,
    for a valid template with the given providers. *)
Definition sampleHealthy (providers : list string) : ManagedClusterReconciler :=
  sampleReconciler (Ok (sampleTemplate true providers)) (Ok (sampleCredential "Ready"))
    (Ok readyRelease) [] [] None None sampleChains.

(** A reconciler that answers as [r] does, except that it finds the object
    [mc] and that the workload reports the conditions [rcs]. *)
Definition sampleServing (r : ManagedClusterReconciler) (mc : ManagedCluster)
    (rcs : list Condition) : ManagedClusterReconciler :=
  {| SystemNamespace := SystemNamespace r;
     Get_ManagedCluster := λ _ _, Ok mc;
     Get_Management := Get_Management r;
     Get_ClusterTemplate := Get_ClusterTemplate r;
     Get_HelmChart := Get_HelmChart r;
     Get_Credential := Get_Credential r;
     Get_Secret := Get_Secret r;
     Get_HelmRelease := Get_HelmRelease r;
     List_ClusterTemplateChains := List_ClusterTemplateChains r;
     List_PartialObjectMetadata := List_PartialObjectMetadata r;
     Client_Update := Client_Update r;
     Status_Update := Status_Update r;
     Client_Patch := Client_Patch r;
     GetResourceConditions := λ _ _, Ok rcs;
     InitConditions := InitConditions r;
     HelmValues := HelmValues r;
     helm_DownloadChartFromArtifact := helm_DownloadChartFromArtifact r;
     helm_ActionConfigInit := helm_ActionConfigInit r;
     helm_InstallRun := helm_InstallRun r;
     helm_ReconcileHelmRelease := helm_ReconcileHelmRelease r;
     helm_DeleteHelmRelease := helm_DeleteHelmRelease r;
     sveltos_ReconcileProfile := sveltos_ReconcileProfile r;
     sveltos_DeleteProfile := sveltos_DeleteProfile r;
     helmChartOpts := helmChartOpts r;
     credspropagation_PropagateAzureSecrets := credspropagation_PropagateAzureSecrets r;
     credspropagation_PropagateVSphereSecrets := credspropagation_PropagateVSphereSecrets r |}.

(** The sample cluster as it is created: no finalizer, nothing observed. *)
Definition sampleNewCluster : ManagedCluster :=
  mkManagedCluster "default" "dev" "uid-1" 1 false []
    "aws-standalone-cp-0-0-1" "aws-cred" (Some (JSONObject sampleConfig)) false [] 0 false
    0 [] "" [].

(** The sample cluster with no configuration at all. *)
Definition sampleClusterWithoutConfig : ManagedCluster :=
  mkManagedCluster "default" "dev" "uid-1" 1 false [ManagedClusterFinalizer]
    "aws-standalone-cp-0-0-1" "aws-cred" None false [] 0 false
    1 [] "" [].

(** Conditions of a workload that is still coming up. *)
Definition sampleWorkloadConditions : list Condition :=
  [ mkCondition "ControlPlaneInitialized" ConditionTrue "" "control plane is up";
    mkCondition "InfrastructureReady" ConditionFalse "Provisioning" "waiting for the VPC" ].

(** * Properties *)

(** ** Strings and the condition list *)

Lemma append_assoc (s t u : string) : (s +:+ t) +:+ u = s +:+ t +:+ u.
Proof.
  induction s as [|a s IH]; [done |].
  change (String a ((s +:+ t) +:+ u) = String a (s +:+ t +:+ u)). by f_equal.
Qed.

Lemma append_empty_r (s : string) : s +:+ "" = s.
Proof.
  induction s as [|a s IH]; [done |].
  change (String a (s +:+ "") = String a s). by f_equal.
Qed.

Lemma append_nonempty_r (s t : string) : t ≠ "" → s +:+ t ≠ "".
Proof. destruct s; [done | discriminate]. Qed.

Lemma joinMessages_empty (l : list Condition) : joinMessages l = "" ↔ l = [].
Proof.
  split; [| by intros ->].
  destruct l as [|c l]; [done |]. simpl. intros H.
  by apply append_nonempty_r in H.
Qed.

Lemma FindStatusCondition_set (cs : list Condition) (c : Condition) :
  FindStatusCondition (SetStatusCondition cs c) (cType c) = Some c.
Proof.
  induction cs as [|c' cs IH]; simpl.
  - by rewrite bool_decide_eq_true_2.
  - case_bool_decide as Hc; simpl.
    + by rewrite bool_decide_eq_true_2.
    + by rewrite bool_decide_eq_false_2.
Qed.

Lemma FindStatusCondition_set_ne (cs : list Condition) (c : Condition) (t : string) :
  cType c ≠ t →
  FindStatusCondition (SetStatusCondition cs c) t = FindStatusCondition cs t.
Proof.
  intros Hne. induction cs as [|c' cs IH]; simpl.
  - by rewrite bool_decide_eq_false_2.
  - case_bool_decide as Hc; simpl.
    + rewrite !bool_decide_eq_false_2; [done | congruence | done].
    + by rewrite IH.
Qed.

Lemma SetStatusCondition_twice (cs : list Condition) (c1 c2 : Condition) :
  cType c1 = cType c2 →
  SetStatusCondition (SetStatusCondition cs c1) c2 = SetStatusCondition cs c2.
Proof.
  intros Heq. induction cs as [|c' cs IH]; simpl.
  - by rewrite bool_decide_eq_true_2.
  - rewrite <- Heq. case_bool_decide as Hc; simpl.
    + by rewrite bool_decide_eq_true_2.
    + rewrite bool_decide_eq_false_2 by congruence. by rewrite IH.
Qed.

(** ** The umbrella condition *)

Lemma collectMessages_from (cs : list Condition) (warnings errs : string) :
  foldl (λ '(warnings, errs) condition,
           if bool_decide (cType condition = ReadyCondition) then (warnings, errs)
           else
             let warnings :=
               if bool_decide (cStatus condition = ConditionUnknown)
               then warnings +:+ cMessage condition +:+ ". " else warnings in
             let errs :=
               if bool_decide (cStatus condition = ConditionFalse)
               then errs +:+ cMessage condition +:+ ". " else errs in
             (warnings, errs))
        (warnings, errs) cs
  = (warnings +:+ joinMessages (othersWith ConditionUnknown cs),
     errs +:+ joinMessages (othersWith ConditionFalse cs)).
Proof.
  revert warnings errs.
  induction cs as [|c cs IH]; intros warnings errs; simpl.
  - by rewrite !append_empty_r.
  - unfold othersWith in *. rewrite !filter_cons.
    destruct c as [t st rs msg]; simpl.
    case_bool_decide as Ht; simpl.
    + rewrite IH. rewrite !decide_False by (intros [? ?]; congruence). done.
    + rewrite IH. destruct st; simpl.
      * rewrite !decide_False by (intros [? ?]; congruence). done.
      * rewrite decide_False by (intros [? ?]; congruence).
        rewrite decide_True by done.
        simpl. by rewrite !append_assoc.
      * rewrite decide_True by done.
        rewrite decide_False by (intros [? ?]; congruence).
        simpl. by rewrite !append_assoc.
Qed.

Lemma collectMessages_spec (cs : list Condition) :
  collectMessages cs
  = (joinMessages (othersWith ConditionUnknown cs),
     joinMessages (othersWith ConditionFalse cs)).
Proof. unfold collectMessages. by rewrite collectMessages_from. Qed.

Lemma readyCondition_spec (cs : list Condition) : readyCondition cs = umbrellaReady cs.
Proof.
  unfold readyCondition, umbrellaReady. rewrite collectMessages_spec.
  destruct (decide (othersWith ConditionFalse cs = [])) as [HF|HF].
  - rewrite (bool_decide_eq_false_2 (joinMessages _ ≠ ""))
      by (rewrite joinMessages_empty; naive_solver).
    rewrite (bool_decide_eq_false_2 (othersWith ConditionFalse cs ≠ [])) by naive_solver.
    destruct (decide (othersWith ConditionUnknown cs = [])) as [HU|HU].
    + rewrite (bool_decide_eq_false_2 (joinMessages _ ≠ ""))
        by (rewrite joinMessages_empty; naive_solver).
      by rewrite bool_decide_eq_false_2 by naive_solver.
    + rewrite (bool_decide_eq_true_2 (joinMessages _ ≠ ""))
        by (by rewrite joinMessages_empty).
      by rewrite bool_decide_eq_true_2.
  - rewrite (bool_decide_eq_true_2 (joinMessages (othersWith ConditionFalse cs) ≠ ""))
      by (by rewrite joinMessages_empty).
    by rewrite bool_decide_eq_true_2.
Qed.

Lemma updateStatus_conditions (r : ManagedClusterReconciler) (mc : ManagedCluster)
    (template : ClusterTemplate) :
  Status_Conditions (updateStatus r mc template).1.2
  = SetStatusCondition (Status_Conditions mc) (readyCondition (Status_Conditions mc)).
Proof.
  unfold updateStatus, setAvailableUpgrades. simpl.
  destruct (List_ClusterTemplateChains r _ _); simpl; [| done].
  by destruct (Status_Update r _).
Qed.

(** C6.  After [updateStatus], whatever its collaborators answer, the
    [Ready] condition of the object is the one the ledger's rule gives for
    the conditions the object had on entry: when some condition other than
    [Ready] is False, [Ready] is False with reason Failed and carries the
    messages of all the False ones, in list order, each followed by a full
    stop and a space; otherwise, when some is Unknown, [Ready] is Unknown
    with reason Progressing and carries the Unknown ones' messages in the
    same way; otherwise [Ready] is True. *)
Theorem C6_updateStatus_ready_rule (r : ManagedClusterReconciler) (mc : ManagedCluster)
    (template : ClusterTemplate) :
  FindStatusCondition (Status_Conditions (updateStatus r mc template).1.2) ReadyCondition
  = Some (umbrellaReady (Status_Conditions mc)).
Proof.
  rewrite updateStatus_conditions, readyCondition_spec.
  assert (cType (umbrellaReady (Status_Conditions mc)) = ReadyCondition) as Ht.
  { unfold umbrellaReady. by repeat case_bool_decide. }
  pose proof (FindStatusCondition_set (Status_Conditions mc)
                (umbrellaReady (Status_Conditions mc))) as Hfind.
  by rewrite Ht in Hfind.
Qed.

(** ** Available upgrades *)

Section AvailableUpgrades.
Variable templateName : string.












End AvailableUpgrades.




(** ** Credential propagation *)



(** A provider with no routine: the condition is set and the loop goes on
    to the remaining providers. *)
Lemma propagateProviders_unsupported (r : ManagedClusterReconciler) (secret provider : string)
    (rest : list string) (mc : ManagedCluster) :
  provider ≠ "aws" → provider ≠ "azure" → provider ≠ "vsphere" →
  propagateProviders r secret (provider :: rest) mc
  = propagateProviders r secret rest
      (setCondition (credentialsPropagated ConditionFalse FailedReason
                       ("unsupported infrastructure provider " +:+ provider)) mc).
Proof. intros ???. simpl. by rewrite !bool_decide_eq_false_2. Qed.

(** C4.  The code at a pass over the providers openstack, azure whose
    azure routine succeeds: the pass sets [CredentialsPropagated] False for
    openstack, goes on to call the azure routine, which overwrites the
    condition with True, and returns no error. *)
Theorem C4_unsupported_provider_is_passed_over :
  let r := sampleReconciler
             (Ok (sampleTemplate true ["infrastructure-openstack"; "infrastructure-azure"]))
             (Ok (sampleCredential "Ready")) (Ok readyRelease) [] [] None None [] in
  let mc := sampleCluster [ManagedClusterFinalizer] [] false in
  let unsupported :=
    setCondition (credentialsPropagated ConditionFalse FailedReason
                    "unsupported infrastructure provider openstack") mc in
  let '(err, mc', evs) := reconcileCredentialPropagation r mc in
  getInfraProvidersNames r (Namespace mc) (Spec_Template mc) = Ok ["openstack"; "azure"]
  ∧ err = None
  ∧ evs = [EvPropagateAzureSecrets (mkPropagationCfg unsupported "dev-kubeconfig" "hmc-system")]
  ∧ FindStatusCondition (Status_Conditions mc') CredentialsPropagatedCondition
    = Some (credentialsPropagated ConditionTrue SucceededReason "Azure CCM credentials created").
Proof. vm_compute. done. Qed.

(** ** The update path *)

Lemma setCondition_twice (c1 c2 : Condition) (mc : ManagedCluster) :
  cType c1 = cType c2 → setCondition c2 (setCondition c1 mc) = setCondition c2 mc.
Proof.
  intros Heq. unfold setCondition, SetConditions. simpl.
  by rewrite SetStatusCondition_twice.
Qed.

(** The readiness state of the credential has no effect on what [Update]
    does after the credential is found. *)
Lemma updateCredential_found (r : ManagedClusterReconciler) (template : ClusterTemplate)
    (mc : ManagedCluster) (cred : Credential) :
  Get_Credential r (Namespace mc) (Spec_Credential mc) = Ok cred →
  updateCredential r template mc
  = let mc' :=
      setCondition (credentialReady ConditionTrue SucceededReason "Credential is Ready") mc in
    if negb (Spec_DryRun mc) then updateRelease r template cred mc'
    else (Returned (Result_zero, None), template, mc', []).
Proof.
  intros Hcred. unfold updateCredential. rewrite Hcred.
  case_bool_decide; [| done].
  by rewrite setCondition_twice.
Qed.

(** C1.  The code at a non-deleting, non-dry-run object that carries its
    finalizer and whose credential exists in state "Not Ready": the pass
    leaves [CredentialReady] True and sends the release upsert. *)
Theorem C1_credential_not_ready_still_upserts :
  let r := sampleReconciler (Ok (sampleTemplate true ["infrastructure-aws"]))
             (Ok (sampleCredential "Not Ready")) (Ok readyRelease) [] [] None None [] in
  let mc := sampleCluster [ManagedClusterFinalizer] [] false in
  let '(outcome, mc', evs) := Update r mc in
  Get_Credential r (Namespace mc) (Spec_Credential mc) = Ok (sampleCredential "Not Ready")
  ∧ cred_State (sampleCredential "Not Ready") ≠ CredentialReady
  ∧ FindStatusCondition (Status_Conditions mc') CredentialReadyCondition
    = Some (credentialReady ConditionTrue SucceededReason "Credential is Ready")
  ∧ ∃ opts rest, evs = EvReconcileHelmRelease "dev" "default" opts :: rest.
Proof.
  vm_compute. split; [done |]. split; [discriminate |]. split; [done |]. eauto.
Qed.

(** ** The entry point *)

(** [Reconcile] hands a live object to [Update] and an object marked for
    deletion to [Delete]; on the first pass over an object it first looks
    up the Management object and reports the creation. *)
Lemma Reconcile_Update (r : ManagedClusterReconciler) (namespace name : string)
    (mc : ManagedCluster) :
  Get_ManagedCluster r namespace name = Ok mc →
  Deleting mc = false →
  Status_ObservedGeneration mc ≠ 0 →
  Reconcile r namespace name = ((Update r mc).1.1, Some (Update r mc).1.2, (Update r mc).2).
Proof.
  intros Hget Hlive Hseen. unfold Reconcile. rewrite Hget, Hlive.
  rewrite bool_decide_eq_false_2 by done.
  by destruct (Update r mc) as [[outcome mc'] evs].
Qed.

Lemma Reconcile_Delete (r : ManagedClusterReconciler) (namespace name : string)
    (mc : ManagedCluster) :
  Get_ManagedCluster r namespace name = Ok mc →
  Deleting mc = true →
  Reconcile r namespace name
  = (Returned (Delete r mc).1.1, Some (Delete r mc).1.2, (Delete r mc).2).
Proof.
  intros Hget Hdel. unfold Reconcile. rewrite Hget, Hdel.
  by destruct (Delete r mc) as [[res mc'] evs].
Qed.

(** ** Requests of the update path *)

Lemma noReleaseUpsert_elem (evs : list Event) name ns opts :
  noReleaseUpsert evs → EvReconcileHelmRelease name ns opts ∉ evs.
Proof. intros Hall Hin. by apply (proj1 (Forall_forall _ _) Hall) in Hin. Qed.




Lemma updateStatus_noReleaseUpsert (r : ManagedClusterReconciler) (mc : ManagedCluster)
    (template : ClusterTemplate) :
  noReleaseUpsert (updateStatus r mc template).2.
Proof.
  unfold updateStatus, setAvailableUpgrades.
  destruct (List_ClusterTemplateChains r _ _); simpl; [| constructor].
  destruct (Status_Update r _); by repeat constructor.
Qed.

(** ** The ledger under [SetStatusCondition] *)






(** ** The values of the release upsert *)







(** ** An invalid template *)




(** ** Dry run *)




(** ** Deletion *)

Lemma RemoveFinalizer_kept (fs : list string) (f : string) : f ∉ (RemoveFinalizer fs f).1.
Proof. unfold RemoveFinalizer. simpl. rewrite list_elem_of_filter. by intros [? _]. Qed.

Lemma filter_absent (fs : list string) (f : string) :
  f ∉ fs → filter (λ f', f' ≠ f) fs = fs.
Proof.
  induction fs as [|f' fs IH]; [done |].
  intros [Hne Hnot]%not_elem_of_cons.
  rewrite filter_cons, decide_True by done. f_equal. by apply IH.
Qed.

Lemma RemoveFinalizer_removed (fs : list string) (f : string) :
  (RemoveFinalizer fs f).2 = true ↔ f ∈ fs.
Proof.
  unfold RemoveFinalizer. simpl. rewrite negb_true_iff, bool_decide_eq_false. split.
  - intros Hlen. destruct (decide (f ∈ fs)) as [| Hnot]; [done |].
    exfalso. apply Hlen. by rewrite filter_absent.
  - intros Hin Hlen. pose proof (length_filter_lt (λ f', f' ≠ f) fs f Hin) as Hlt.
    rewrite Hlen in Hlt. apply (Nat.lt_irrefl (length fs)), Hlt. by intros Hne.
Qed.

Lemma removeClusterFinalizer_events (r : ManagedClusterReconciler)
    (cluster c : PartialObjectMetadata) :
  EvPatchCluster c ∈ (removeClusterFinalizer r cluster).2 →
  (BlockingFinalizer ∉ pom_Finalizers c) ∧ pom_Name c = pom_Name cluster.
Proof.
  unfold removeClusterFinalizer.
  pose proof (RemoveFinalizer_kept (pom_Finalizers cluster) BlockingFinalizer) as Hkept.
  destruct (RemoveFinalizer (pom_Finalizers cluster) BlockingFinalizer) as [fs removed].
  destruct removed; simpl in *; [| intros Hin; by apply elem_of_nil in Hin].
  destruct (Client_Patch r _); simpl;
    intros Hin%list_elem_of_singleton; by injection Hin as ->.
Qed.

Lemma releaseProviders_events (r : ManagedClusterReconciler) (namespace name : string)
    (providers : list string) (c : PartialObjectMetadata) :
  EvPatchCluster c ∈ (releaseProviders r namespace name providers).2 →
  (BlockingFinalizer ∉ pom_Finalizers c)
  ∧ objectsAvailable r namespace (pom_Name c) gvkMachine = Ok false.
Proof.
  induction providers as [|provider rest IH]; simpl.
  { intros Hin. by apply elem_of_nil in Hin. }
  destruct (providerGVKs !! provider) as [gvk |]; [| done].
  destruct (getCluster r namespace name gvk) as [cluster | err].
  2: { destruct (bool_decide (provider = "aws") && IsNotFound err); simpl;
         intros Hin; by apply elem_of_nil in Hin. }
  destruct (objectsAvailable r namespace (pom_Name cluster) gvkMachine)
    as [found | err] eqn:Hfound; [| intros Hin; by apply elem_of_nil in Hin].
  destruct found; simpl; [done |].
  intros [Hfin Hname]%removeClusterFinalizer_events. by rewrite Hname.
Qed.

Lemma releaseProviders_no_update (r : ManagedClusterReconciler) (namespace name : string)
    (providers : list string) (m : ManagedCluster) :
  EvUpdate m ∉ (releaseProviders r namespace name providers).2.
Proof.
  induction providers as [|provider rest IH]; simpl; [apply not_elem_of_nil |].
  destruct (providerGVKs !! provider) as [gvk |]; [| done].
  destruct (getCluster r namespace name gvk) as [cluster | err].
  2: { destruct (bool_decide (provider = "aws") && IsNotFound err); apply not_elem_of_nil. }
  destruct (objectsAvailable r namespace (pom_Name cluster) gvkMachine) as [found | err];
    [| apply not_elem_of_nil].
  destruct found; simpl; [done |].
  unfold removeClusterFinalizer.
  destruct (RemoveFinalizer _ _) as [fs removed].
  destruct removed; [| apply not_elem_of_nil].
  destruct (Client_Patch r _); simpl; intros Hin%list_elem_of_singleton; discriminate.
Qed.




(** C3, as stated, fails: in a pass that finds no release, the object's
    finalizer is removed although the workload still carries the blocking
    finalizer and a Machine is left. *)
Lemma C3_counterexample :
  let r := sampleReconciler (Ok (sampleTemplate true ["infrastructure-aws"]))
             (Ok (sampleCredential "Ready")) (Err (notFound "helmrelease"))
             [sampleWorkload [BlockingFinalizer]] [sampleMachine] None None [] in
  let mc := sampleDeletingCluster [ManagedClusterFinalizer] in
  Deleting mc = true
  ∧ getCluster r (Namespace mc) (Name mc) gvkAWSCluster
    = Ok (sampleWorkload [BlockingFinalizer])
  ∧ objectsAvailable r (Namespace mc) "dev" gvkMachine = Ok true
  ∧ Delete r mc
    = ((Result_zero, None), SetFinalizers [] mc, [EvUpdate (SetFinalizers [] mc)]).
Proof. by vm_compute. Qed.

(** The requests of a pass that finds the release. *)
Lemma Delete_release_present (r : ManagedClusterReconciler) (mc : ManagedCluster)
    (hr : HelmRelease) :
  Get_HelmRelease r (Namespace mc) (Name mc) = Ok hr →
  ∃ providers,
    (Delete r mc).2
    `prefix_of` EvDeleteHelmRelease (Name mc) (Namespace mc)
                :: EvDeleteProfile (Namespace mc) (Name mc)
                :: (releaseProviders r (Namespace mc) (Name mc) providers).2.
Proof.
  intros Hget. unfold Delete. rewrite Hget.
  destruct (helm_DeleteHelmRelease r _ _) as [e1 |]; simpl.
  { exists []. by eexists. }
  destruct (sveltos_DeleteProfile r _ _) as [e2 |]; simpl.
  { exists []. by eexists. }
  unfold releaseCluster.
  destruct (getInfraProvidersNames r _ _) as [providers | e3]; simpl.
  2: { exists []. by exists []. }
  exists providers.
  destruct (releaseProviders r _ _ providers) as [[e3 |] ev3]; simpl;
    exists []; by rewrite app_nil_r.
Qed.

(** C3, amended.  In a deletion pass, an object update is sent only when
    the release is not found and the object carries its finalizer; the
    update drops the finalizer and is the only request of the pass.
    Conversely, when the release is not found and the finalizer is present,
    the pass sends that update, whatever the state of the workload.  A
    workload is patched only in a pass that finds the release, the patch
    removes the blocking finalizer, and no Machine was listed for that
    workload. *)
Theorem C3_own_finalizer_follows_release (r : ManagedClusterReconciler)
    (mc : ManagedCluster) :
  let evs := (Delete r mc).2 in
  (∀ m, EvUpdate m ∈ evs →
     (∃ e, Get_HelmRelease r (Namespace mc) (Name mc) = Err e ∧ IsNotFound e = true)
     ∧ ManagedClusterFinalizer ∈ Finalizers mc
     ∧ (ManagedClusterFinalizer ∉ Finalizers m)
     ∧ evs = [EvUpdate m])
  ∧ (∀ e, Get_HelmRelease r (Namespace mc) (Name mc) = Err e → IsNotFound e = true →
     ManagedClusterFinalizer ∈ Finalizers mc →
     ∃ m, evs = [EvUpdate m] ∧ ManagedClusterFinalizer ∉ Finalizers m)
  ∧ (∀ c, EvPatchCluster c ∈ evs →
     (∃ hr, Get_HelmRelease r (Namespace mc) (Name mc) = Ok hr)
     ∧ (BlockingFinalizer ∉ pom_Finalizers c)
     ∧ objectsAvailable r (Namespace mc) (pom_Name c) gvkMachine = Ok false).
Proof.
  intros evs. subst evs.
  destruct (Get_HelmRelease r (Namespace mc) (Name mc)) as [hr | e] eqn:Hget.
  - destruct (Delete_release_present r mc hr Hget) as [providers Hprefix].
    split; [| split].
    + intros m Hin. exfalso.
      apply (elem_of_prefix _ _ _ Hin) in Hprefix.
      repeat (apply elem_of_cons in Hprefix as [Hprefix | Hprefix]; [discriminate |]).
      by apply releaseProviders_no_update in Hprefix.
    + intros e. discriminate.
    + intros c Hin. split; [by eexists |].
      apply (elem_of_prefix _ _ _ Hin) in Hprefix.
      repeat (apply elem_of_cons in Hprefix as [Hprefix | Hprefix]; [discriminate |]).
      by apply releaseProviders_events in Hprefix.
  - pose proof (RemoveFinalizer_kept (Finalizers mc) ManagedClusterFinalizer) as Hkept.
    pose proof (RemoveFinalizer_removed (Finalizers mc) ManagedClusterFinalizer) as Hremoved.
    unfold Delete. rewrite Hget.
    destruct (RemoveFinalizer (Finalizers mc) ManagedClusterFinalizer) as [fs removed].
    cbn [fst snd] in Hkept, Hremoved.
    destruct (IsNotFound e) eqn:Hnf.
    2: { split; [| split].
         - intros m Hin. by apply elem_of_nil in Hin.
         - intros e' [= <-]. by rewrite Hnf.
         - intros c Hin. by apply elem_of_nil in Hin. }
    destruct removed.
    + assert (ManagedClusterFinalizer ∈ Finalizers mc) as Hpresent by by apply Hremoved.
      destruct (Client_Update r _); cbn [fst snd]; (split; [| split]).
      * intros m Hin%list_elem_of_singleton. injection Hin as ->.
        split; [by eexists |]. done.
      * intros. by eexists.
      * intros c Hin%list_elem_of_singleton. discriminate.
      * intros m Hin%list_elem_of_singleton. injection Hin as ->.
        split; [by eexists |]. done.
      * intros. by eexists.
      * intros c Hin%list_elem_of_singleton. discriminate.
    + cbn [fst snd]. split; [| split].
      * intros m Hin. by apply elem_of_nil in Hin.
      * intros e' _ _ Hin. apply Hremoved in Hin. discriminate.
      * intros c Hin. by apply elem_of_nil in Hin.
Qed.

(** * Further properties of the code *)

(** ** Provider names *)

Lemma append_cons (a : Ascii.ascii) (s t : string) : String a s +:+ t = String a (s +:+ t).
Proof. reflexivity. Qed.

Lemma prefix_split (s1 s2 : string) :
  String.prefix s1 s2 = true ↔ s2 = s1 +:+ dropString (String.length s1) s2.
Proof.
  revert s2. induction s1 as [|a s1 IH]; intros s2.
  - by destruct s2.
  - destruct s2 as [|b s2]; [done |].
    rewrite append_cons. cbn [String.prefix String.length dropString].
    destruct (Ascii.ascii_dec a b) as [-> | Hne].
    + rewrite IH. split; [by intros <- | by intros [= <-]].
    + split; [done | intros [= Hab _]; done].
Qed.

Lemma prefix_append (s1 post : string) : String.prefix s1 (s1 +:+ post) = true.
Proof.
  induction s1 as [|a s1 IH]; [by destruct post |].
  rewrite append_cons. cbn [String.prefix]. by destruct (Ascii.ascii_dec a a).
Qed.

Lemma dropString_append (s1 post : string) : dropString (String.length s1) (s1 +:+ post) = post.
Proof. induction s1 as [|a s1 IH]; [done | by rewrite append_cons]. Qed.

Lemma index_first (s1 s2 : string) (n : nat) :
  String.index 0 s1 s2 = Some n →
  ∃ pre, String.length pre = n
         ∧ s2 = pre +:+ s1 +:+ dropString (n + String.length s1) s2.
Proof.
  revert n. induction s2 as [|b s2 IH]; intros n; cbn [String.index].
  - destruct s1; [| done]. intros [= <-]. by exists "".
  - destruct (String.prefix s1 (String b s2)) eqn:Hp.
    + intros [= <-]. exists "". split; [done |]. by apply prefix_split.
    + destruct (String.index 0 s1 s2) as [n' |]; [| done]. intros [= <-].
      destruct (IH n' eq_refl) as (pre & Hlen & Heq).
      exists (String b pre). split; [by rewrite <- Hlen |].
      rewrite append_cons. cbn [Nat.add dropString]. by rewrite <- Heq.
Qed.

Lemma index_none (s1 s2 : string) :
  s1 ≠ "" → String.index 0 s1 s2 = None → ∀ pre post, s2 ≠ pre +:+ s1 +:+ post.
Proof.
  intros Hs1. induction s2 as [|b s2 IH]; cbn [String.index].
  - intros _ [|c pre] post; [| done]. destruct s1; done.
  - destruct (String.prefix s1 (String b s2)) eqn:Hp; [done |].
    destruct (String.index 0 s1 s2) as [n' |] eqn:Hi; [done |]. intros _.
    intros [|c pre] post Heq.
    + change ("" +:+ s1 +:+ post) with (s1 +:+ post) in Heq.
      rewrite Heq, prefix_append in Hp. done.
    + rewrite append_cons in Heq. injection Heq as _ Heq. by apply (IH eq_refl pre post).
Qed.

Lemma infraProviderName_Some (v x : string) :
  infraProviderName v = Some x → ∃ pre, v = pre +:+ infraPrefix +:+ x.
Proof.
  unfold infraProviderName.
  destruct (String.index 0 infraPrefix v) as [n |] eqn:Hi; [| done]. intros [= <-].
  destruct (index_first _ _ _ Hi) as (pre & _ & Heq). by exists pre.
Qed.

Lemma infraProviderName_None (v : string) :
  infraProviderName v = None → ∀ pre post, v ≠ pre +:+ infraPrefix +:+ post.
Proof.
  unfold infraProviderName.
  destruct (String.index 0 infraPrefix v) as [n |] eqn:Hi; [done |]. intros _.
  by apply index_none.
Qed.

Lemma index_append (s1 post : string) : String.index 0 s1 (s1 +:+ post) = Some 0%nat.
Proof.
  pose proof (prefix_append s1 post) as Hp.
  destruct (s1 +:+ post) as [|b s2] eqn:Heq; cbn [String.index].
  - by destruct s1.
  - by rewrite Hp.
Qed.

Lemma infraProviderName_prefixed (x : string) :
  infraProviderName (infraPrefix +:+ x) = Some x.
Proof.
  unfold infraProviderName. rewrite index_append.
  f_equal; apply (dropString_append infraPrefix x).
Qed.

Lemma infraProviderNames_prefixed (names : list string) :
  omap infraProviderName ((λ x, infraPrefix +:+ x) <$> names) = names.
Proof.
  induction names as [|x names IH]; [done |].
  rewrite fmap_cons. cbn [omap list_omap].
  by rewrite infraProviderName_prefixed, IH.
Qed.

(** X1.  When the template is found and each of its provider entries is
    the prefix "infrastructure-" followed by a name, [getInfraProvidersNames]
    returns exactly those names, in the template's order. *)
Theorem X1_infra_providers_round_trip (r : ManagedClusterReconciler)
    (templateNamespace templateName : string) (template : ClusterTemplate)
    (names : list string) :
  Get_ClusterTemplate r templateNamespace templateName = Ok template →
  t_Providers template = (λ x, infraPrefix +:+ x) <$> names →
  getInfraProvidersNames r templateNamespace templateName = Ok names.
Proof.
  intros Hget Hps. unfold getInfraProvidersNames.
  by rewrite Hget, Hps, infraProviderNames_prefixed.
Qed.

Lemma X1_infra_providers_round_trip_witness :
  getInfraProvidersNames (sampleHealthy ["infrastructure-aws"; "infrastructure-azure"])
    "default" "aws-standalone-cp-0-0-1"
  = Ok ["aws"; "azure"].
Proof.
  apply (X1_infra_providers_round_trip
           (sampleHealthy ["infrastructure-aws"; "infrastructure-azure"])
           "default" "aws-standalone-cp-0-0-1"
           (sampleTemplate true ["infrastructure-aws"; "infrastructure-azure"])
           ["aws"; "azure"]); reflexivity.
Defined.

(** X2.  For a template that is found, [getInfraProvidersNames] returns
    without error at most one name per provider entry; every name returned
    is what follows an occurrence of "infrastructure-" in some entry; every
    entry that contains the prefix contributes a name; and entries without
    the prefix are dropped silently, so that a template none of whose
    entries contains it gives the empty list. *)
Theorem X2_infra_providers_sound (r : ManagedClusterReconciler)
    (templateNamespace templateName : string) (template : ClusterTemplate) :
  Get_ClusterTemplate r templateNamespace templateName = Ok template →
  ∃ names,
    getInfraProvidersNames r templateNamespace templateName = Ok names
    ∧ (length names ≤ length (t_Providers template))%nat
    ∧ (∀ x, x ∈ names →
         ∃ v pre, v ∈ t_Providers template ∧ v = pre +:+ infraPrefix +:+ x)
    ∧ (∀ v pre post, v ∈ t_Providers template → v = pre +:+ infraPrefix +:+ post →
         ∃ x pre', x ∈ names ∧ v = pre' +:+ infraPrefix +:+ x)
    ∧ ((∀ v pre post, v ∈ t_Providers template → v ≠ pre +:+ infraPrefix +:+ post) →
       names = []).
Proof.
  intros Hget. unfold getInfraProvidersNames. rewrite Hget.
  eexists. split; [done |]. split; [| split; [| split]].
  - induction (t_Providers template) as [|v vs IH]; [done |].
    cbn [omap list_omap]. destruct (infraProviderName v); simpl; lia.
  - intros x (v & Hv & Hx)%list_elem_of_omap.
    destruct (infraProviderName_Some v x Hx) as [pre Heq]. by exists v, pre.
  - intros v pre post Hv Heq.
    destruct (infraProviderName v) as [x |] eqn:Hx.
    + destruct (infraProviderName_Some v x Hx) as [pre' Heq'].
      exists x, pre'. split; [| done]. apply list_elem_of_omap. by exists v.
    + by apply (infraProviderName_None v Hx pre post) in Heq.
  - intros Hnone. apply elem_of_nil_inv. intros x (v & Hv & Hx)%list_elem_of_omap.
    destruct (infraProviderName_Some v x Hx) as [pre Heq]. by apply (Hnone v pre x).
Qed.

Lemma X2_infra_providers_sound_witness :
  let r := sampleHealthy ["bootstrap-k0s"; "infrastructure-aws"] in
  let template := sampleTemplate true ["bootstrap-k0s"; "infrastructure-aws"] in
  ∃ names,
    getInfraProvidersNames r "default" "aws-standalone-cp-0-0-1" = Ok names
    ∧ (length names ≤ length (t_Providers template))%nat
    ∧ (∀ x, x ∈ names →
         ∃ v pre, v ∈ t_Providers template ∧ v = pre +:+ infraPrefix +:+ x)
    ∧ (∀ v pre post, v ∈ t_Providers template → v = pre +:+ infraPrefix +:+ post →
         ∃ x pre', x ∈ names ∧ v = pre' +:+ infraPrefix +:+ x)
    ∧ ((∀ v pre post, v ∈ t_Providers template → v ≠ pre +:+ infraPrefix +:+ post) →
       names = []).
Proof.
  apply (X2_infra_providers_sound
           (sampleHealthy ["bootstrap-k0s"; "infrastructure-aws"])
           "default" "aws-standalone-cp-0-0-1"
           (sampleTemplate true ["bootstrap-k0s"; "infrastructure-aws"])).
  reflexivity.
Defined.

(** ** Mirroring the workload's conditions *)

Lemma SetConditions_same (mc : ManagedCluster) : SetConditions (Status_Conditions mc) mc = mc.
Proof. by destruct mc. Qed.

Lemma mirrored_type (c : Condition) : cType (mirrored c) = cType c.
Proof. unfold mirrored. by destruct (_ && _). Qed.

Lemma mirrorConditions_from (rcs : list Condition) (mc : ManagedCluster) (b : bool) :
  foldl (λ '(allConditionsComplete, managedCluster) metaCondition,
           let allConditionsComplete :=
             if bool_decide (cStatus metaCondition ≠ ConditionTrue) then false
             else allConditionsComplete in
           let metaCondition :=
             if bool_decide (cReason metaCondition = "")
                && bool_decide (cStatus metaCondition = ConditionTrue)
             then mkCondition (cType metaCondition) (cStatus metaCondition)
                    "Succeeded" (cMessage metaCondition)
             else metaCondition in
           (allConditionsComplete, setCondition metaCondition managedCluster))
        (b, mc) rcs
  = (b && bool_decide (Forall (λ c, cStatus c = ConditionTrue) rcs),
     SetConditions
       (foldl (λ cs c, SetStatusCondition cs (mirrored c)) (Status_Conditions mc) rcs) mc).
Proof.
  revert mc b. induction rcs as [|c rcs IH]; intros mc b; cbn [foldl].
  - rewrite SetConditions_same, bool_decide_eq_true_2 by constructor.
    by destruct b.
  - rewrite IH. f_equal.
    destruct (decide (cStatus c = ConditionTrue)) as [Hc | Hc].
    + rewrite (bool_decide_eq_false_2 (cStatus c ≠ ConditionTrue)) by (by intros ?).
      f_equal. apply bool_decide_ext. split; intros Hall.
      * by constructor.
      * by inversion Hall.
    + rewrite (bool_decide_eq_true_2 (cStatus c ≠ ConditionTrue)) by done.
      rewrite (bool_decide_eq_false_2 (Forall _ (c :: rcs)))
        by (intros Hall; by inversion Hall).
      by destruct b.
Qed.

Lemma mirror_frame (rcs cs : list Condition) (t : string) :
  t ∉ cType <$> rcs →
  FindStatusCondition (foldl (λ cs c, SetStatusCondition cs (mirrored c)) cs rcs) t
  = FindStatusCondition cs t.
Proof.
  revert cs. induction rcs as [|c rcs IH]; intros cs Ht; [done |].
  rewrite fmap_cons in Ht. apply not_elem_of_cons in Ht as [Hne Ht].
  cbn [foldl]. rewrite IH by done.
  apply FindStatusCondition_set_ne. by rewrite mirrored_type.
Qed.

Lemma mirror_stored (rcs cs : list Condition) (c : Condition) :
  NoDup (cType <$> rcs) → c ∈ rcs →
  FindStatusCondition (foldl (λ cs c, SetStatusCondition cs (mirrored c)) cs rcs) (cType c)
  = Some (mirrored c).
Proof.
  revert cs. induction rcs as [|c0 rcs IH]; intros cs Hnd Hin.
  { by apply elem_of_nil in Hin. }
  rewrite fmap_cons in Hnd. apply NoDup_cons in Hnd as [Hfresh Hnd].
  cbn [foldl]. apply elem_of_cons in Hin as [-> | Hin].
  - rewrite mirror_frame by done.
    rewrite <- (mirrored_type c0). apply FindStatusCondition_set.
  - by apply IH.
Qed.

(** X3.  When the conditions of the workload are read,
    [setStatusFromClusterStatus] returns no error; it asks for a requeue
    exactly when some condition read is not True; with one condition per
    type among those read, each of them is afterwards on the object's
    ledger under its type, a True condition with an empty reason carrying
    the reason "Succeeded"; and the ledger's conditions of every other type
    are what they were. *)
Theorem X3_cluster_conditions_mirrored (r : ManagedClusterReconciler) (mc : ManagedCluster)
    (rcs : list Condition) :
  GetResourceConditions r (Namespace mc) (Name mc) = Ok rcs →
  let '((requeue, err), mc') := setStatusFromClusterStatus r mc in
  err = None
  ∧ (requeue = false ↔ Forall (λ c, cStatus c = ConditionTrue) rcs)
  ∧ (NoDup (cType <$> rcs) →
     ∀ c, c ∈ rcs →
       FindStatusCondition (Status_Conditions mc') (cType c) = Some (mirrored c))
  ∧ (∀ t, t ∉ cType <$> rcs →
       FindStatusCondition (Status_Conditions mc') t
       = FindStatusCondition (Status_Conditions mc) t).
Proof.
  intros Hget. unfold setStatusFromClusterStatus, mirrorConditions.
  rewrite Hget, mirrorConditions_from. cbn [andb Status_Conditions SetConditions].
  split; [done |]. split; [| split].
  - rewrite negb_false_iff. apply bool_decide_eq_true.
  - intros Hnd c Hc. by apply mirror_stored.
  - intros t Ht. by apply mirror_frame.
Qed.

Lemma X3_cluster_conditions_mirrored_witness :
  let mc := sampleCluster [ManagedClusterFinalizer] [] false in
  let r := sampleServing (sampleHealthy ["infrastructure-aws"]) mc sampleWorkloadConditions in
  let '((requeue, err), mc') := setStatusFromClusterStatus r mc in
  err = None
  ∧ (requeue = false ↔ Forall (λ c, cStatus c = ConditionTrue) sampleWorkloadConditions)
  ∧ (NoDup (cType <$> sampleWorkloadConditions) →
     ∀ c, c ∈ sampleWorkloadConditions →
       FindStatusCondition (Status_Conditions mc') (cType c) = Some (mirrored c))
  ∧ (∀ t, t ∉ cType <$> sampleWorkloadConditions →
       FindStatusCondition (Status_Conditions mc') t
       = FindStatusCondition (Status_Conditions mc) t).
Proof.
  apply (X3_cluster_conditions_mirrored
           (sampleServing (sampleHealthy ["infrastructure-aws"])
              (sampleCluster [ManagedClusterFinalizer] [] false) sampleWorkloadConditions)
           (sampleCluster [ManagedClusterFinalizer] [] false) sampleWorkloadConditions).
  reflexivity.
Defined.

(** ** The frame of the update path *)

Lemma propagateProviders_frame (r : ManagedClusterReconciler) (secret : string)
    (providers : list string) (mc : ManagedCluster) :
  withoutStatus (propagateProviders r secret providers mc).1.2 = withoutStatus mc
  ∧ Forall (λ ev, isLateRequest ev = true) (propagateProviders r secret providers mc).2.
Proof.
  revert mc. induction providers as [|provider rest IH]; intros mc; cbn [propagateProviders].
  - by split.
  - repeat case_bool_decide; try apply IH.
    + destruct (credspropagation_PropagateAzureSecrets r _); simpl.
      * split; [done | by repeat constructor].
      * destruct (IH (setCondition (credentialsPropagated ConditionTrue SucceededReason
                                      "Azure CCM credentials created") mc)) as [Hf He].
        destruct (propagateProviders r secret rest _) as [[err mc'] evs]; simpl in *.
        split; [done | by constructor].
    + destruct (credspropagation_PropagateVSphereSecrets r _); simpl.
      * split; [done | by repeat constructor].
      * destruct (IH (setCondition (credentialsPropagated ConditionTrue SucceededReason
                                      "vSphere CCM credentials created") mc)) as [Hf He].
        destruct (propagateProviders r secret rest _) as [[err mc'] evs]; simpl in *.
        split; [done | by constructor].
    + destruct (IH (setCondition
                      (credentialsPropagated ConditionFalse FailedReason
                         ("unsupported infrastructure provider " +:+ provider)) mc))
        as [Hf He].
      by split.
Qed.

Lemma reconcileCredentialPropagation_frame (r : ManagedClusterReconciler)
    (mc : ManagedCluster) :
  withoutStatus (reconcileCredentialPropagation r mc).1.2 = withoutStatus mc
  ∧ Forall (λ ev, isLateRequest ev = true) (reconcileCredentialPropagation r mc).2.
Proof.
  unfold reconcileCredentialPropagation.
  destruct (getInfraProvidersNames r _ _); [| by split].
  destruct (Get_Secret r _ _); [| by split].
  apply propagateProviders_frame.
Qed.

Lemma updateServices_requests (r : ManagedClusterReconciler) (mc : ManagedCluster) :
  Forall (λ ev, isLateRequest ev = true) (updateServices r mc).2.
Proof.
  unfold updateServices. destruct (helmChartOpts r _ _); [| constructor].
  destruct (sveltos_ReconcileProfile r _ _ _); by repeat constructor.
Qed.

Lemma setStatusFromClusterStatus_frame (r : ManagedClusterReconciler) (mc : ManagedCluster) :
  withoutStatus (setStatusFromClusterStatus r mc).2 = withoutStatus mc.
Proof.
  unfold setStatusFromClusterStatus, mirrorConditions.
  destruct (GetResourceConditions r _ _) as [rcs | err].
  - by rewrite mirrorConditions_from.
  - by destruct (IsResourceNotFound err).
Qed.

Lemma isLate_isBody (evs : list Event) :
  Forall (λ ev, isLateRequest ev = true) evs → Forall (λ ev, isBodyRequest ev = true) evs.
Proof. intros Hall. eapply Forall_impl; [exact Hall |]. by intros []. Qed.

Lemma updateRelease_frame (r : ManagedClusterReconciler) (template : ClusterTemplate)
    (cred : Credential) (mc : ManagedCluster) :
  withoutStatus (updateRelease r template cred mc).1.2 = withoutStatus mc
  ∧ Forall (λ ev, isBodyRequest ev = true) (updateRelease r template cred mc).2.
Proof.
  unfold updateRelease.
  destruct (setIdentityHelmValues _ _) as [[helmValues | err] | why]; [| by split..].
  destruct (helm_ReconcileHelmRelease r _ _ _) as [hr | err]; [| split; by repeat constructor].
  set (mc1 := match fluxconditions_Get hr fluxmeta_ReadyCondition with
              | Some _ => _ | None => _ end).
  assert (withoutStatus mc1 = withoutStatus mc) as Hmc1.
  { subst mc1. by destruct (fluxconditions_Get hr fluxmeta_ReadyCondition). }
  pose proof (setStatusFromClusterStatus_frame r mc1) as Hmc2.
  rewrite Hmc1 in Hmc2. clearbody mc1.
  destruct (setStatusFromClusterStatus r mc1) as [[requeue [err |]] mc2]; simpl in Hmc2.
  { destruct requeue; (split; [exact Hmc2 | by repeat constructor]). }
  destruct requeue; [split; [exact Hmc2 | by repeat constructor] |].
  destruct (negb (fluxconditions_IsReady hr));
    [split; [exact Hmc2 | by repeat constructor] |].
  destruct (reconcileCredentialPropagation_frame r mc2) as [Hmc3 Hev3].
  rewrite Hmc2 in Hmc3.
  destruct (reconcileCredentialPropagation r mc2) as [[[err |] mc3] evs]; simpl in *.
  { split; [exact Hmc3 |]. constructor; [done | by apply isLate_isBody]. }
  pose proof (updateServices_requests r mc3) as Hev4.
  destruct (updateServices r mc3) as [res evs']; simpl in *.
  split; [exact Hmc3 |].
  constructor; [done |]. apply Forall_app. split; by apply isLate_isBody.
Qed.

Lemma updateCredential_frame (r : ManagedClusterReconciler) (template : ClusterTemplate)
    (mc : ManagedCluster) :
  withoutStatus (updateCredential r template mc).1.2 = withoutStatus mc
  ∧ Forall (λ ev, isBodyRequest ev = true) (updateCredential r template mc).2.
Proof.
  destruct (Get_Credential r (Namespace mc) (Spec_Credential mc)) as [cred | err] eqn:Hcred.
  - rewrite (updateCredential_found _ _ _ _ Hcred). cbv zeta.
    destruct (negb (Spec_DryRun mc)); [| by split].
    destruct (updateRelease_frame r template cred
                (setCondition (credentialReady ConditionTrue SucceededReason
                                 "Credential is Ready") mc)) as [Hf He].
    by split.
  - unfold updateCredential. rewrite Hcred. by split.
Qed.

Lemma updateChart_frame (r : ManagedClusterReconciler) (template : ClusterTemplate)
    (mc : ManagedCluster) :
  withoutStatus (updateChart r template mc).1.2 = withoutStatus mc
  ∧ Forall (λ ev, isBodyRequest ev = true) (updateChart r template mc).2.
Proof.
  unfold updateChart.
  destruct (getSource r _); [| by split].
  destruct (helm_DownloadChartFromArtifact r _); [| by split].
  destruct (helm_ActionConfigInit r _); [by split |].
  destruct (validateReleaseWithValues r _ _); [by split |].
  destruct (updateCredential_frame r template
              (setCondition (helmChartReady ConditionTrue SucceededReason
                               "Helm chart is valid") mc)) as [Hf He].
  by split.
Qed.

Lemma updateTemplate_frame (r : ManagedClusterReconciler) (mc : ManagedCluster) :
  withoutStatus (updateTemplate r mc).1.2 = withoutStatus mc
  ∧ Forall (λ ev, isBodyRequest ev = true) (updateTemplate r mc).2.
Proof.
  unfold updateTemplate.
  destruct (Get_ClusterTemplate r _ _) as [template | err]; [| by split].
  destruct (t_Valid template); [| by split].
  destruct (updateChart_frame r template
              (setCondition (templateReady ConditionTrue SucceededReason "Template is valid")
                 (SetKubernetesVersion (t_KubernetesVersion template) mc))) as [Hf He].
  by split.
Qed.

(** [Update] on an object that carries the finalizer: the body runs on the
    object with the ledger of [ledgerOnEntry], then [updateStatus]. *)
Lemma Update_past_guard (r : ManagedClusterReconciler) (mc : ManagedCluster) :
  ManagedClusterFinalizer ∈ Finalizers mc →
  Update r mc
  = let '(outcome, template, m, evs) :=
      updateTemplate r (SetConditions (ledgerOnEntry r mc) mc) in
    let '(statusErr, m, evs') := updateStatus r m template in
    (match outcome with
     | Returned (result, err) => Returned (result, errors_Join err statusErr)
     | Panicked why => Panicked why
     end, m, (evs ++ evs')%list).
Proof.
  intros Hfin. unfold Update, AddFinalizer, ContainsFinalizer, ledgerOnEntry.
  rewrite bool_decide_eq_true_2 by done.
  case_bool_decide; [done |]. by rewrite SetConditions_same.
Qed.

Lemma updateStatus_frame (r : ManagedClusterReconciler) (mc : ManagedCluster)
    (template : ClusterTemplate) :
  withoutStatus (updateStatus r mc template).1.2 = withoutStatus mc
  ∧ Status_ObservedGeneration (updateStatus r mc template).1.2 = Generation mc.
Proof.
  unfold updateStatus, setAvailableUpgrades. cbn [t_Namespace].
  destruct (List_ClusterTemplateChains r _ _); simpl; [| done].
  by destruct (Status_Update r _).
Qed.

Lemma updateStatus_requests (r : ManagedClusterReconciler) (mc : ManagedCluster)
    (template : ClusterTemplate) :
  let '(statusErr, mc', evs) := updateStatus r mc template in
  (evs = [] ∧ statusErr ≠ None)
  ∨ (evs = [EvStatusUpdate mc'] ∧ statusErr = Status_Update r mc' ∧ statusErr = None)
  ∨ (evs = [EvStatusUpdate mc'] ∧ statusErr ≠ None ∧ Status_Update r mc' ≠ None).
Proof.
  unfold updateStatus, setAvailableUpgrades.
  destruct (List_ClusterTemplateChains r _ _); simpl; [| by left].
  destruct (Status_Update r _) eqn:Hup; [right; right | right; left]; by rewrite ?Hup.
Qed.

(** X4.  Whatever the collaborators answer, [Update] changes nothing of
    the object outside its status except that the object's finalizer is
    added to the finalizer list when it was not there: metadata and spec
    are as on entry. *)
Theorem X4_update_changes_only_status (r : ManagedClusterReconciler) (mc : ManagedCluster) :
  withoutStatus (Update r mc).1.2
  = withoutStatus (SetFinalizers (AddFinalizer (Finalizers mc) ManagedClusterFinalizer).1 mc).
Proof.
  destruct (decide (ManagedClusterFinalizer ∈ Finalizers mc)) as [Hfin | Hfin].
  - rewrite (Update_past_guard r mc Hfin).
    unfold AddFinalizer, ContainsFinalizer. rewrite bool_decide_eq_true_2 by done.
    destruct (updateTemplate_frame r (SetConditions (ledgerOnEntry r mc) mc)) as [Hf _].
    destruct (updateTemplate r _) as [[[outcome template] m] evs].
    destruct (updateStatus_frame r m template) as [Hs _].
    destruct (updateStatus r m template) as [[statusErr m'] evs']. simpl in *.
    by rewrite Hs, Hf.
  - unfold Update, AddFinalizer, ContainsFinalizer. rewrite bool_decide_eq_false_2 by done.
    by destruct (Client_Update r _).
Qed.

(** X5.  In every pass of [Update] over an object that carries its
    finalizer, the object ends with the observed generation set to its
    generation; a status write, if one is sent, carries the object exactly
    as the pass leaves it; no plain update of the object is sent; and a
    pass that returns without error has sent the status write as its last
    request and had it accepted. *)
Theorem X5_status_written_once (r : ManagedClusterReconciler) (mc : ManagedCluster) :
  ManagedClusterFinalizer ∈ Finalizers mc →
  let '(outcome, mc', evs) := Update r mc in
  Status_ObservedGeneration mc' = Generation mc
  ∧ (∀ m, EvStatusUpdate m ∈ evs → m = mc')
  ∧ (∀ m, EvUpdate m ∉ evs)
  ∧ (∀ res, outcome = Returned (res, None) →
       Status_Update r mc' = None ∧ ∃ evs0, evs = (evs0 ++ [EvStatusUpdate mc'])%list).
Proof.
  intros Hfin. rewrite (Update_past_guard r mc Hfin).
  destruct (updateTemplate_frame r (SetConditions (ledgerOnEntry r mc) mc)) as [Hf He].
  destruct (updateTemplate r _) as [[[outcome template] m] evs].
  destruct (updateStatus_frame r m template) as [_ Hgen].
  pose proof (updateStatus_requests r m template) as Hreq.
  destruct (updateStatus r m template) as [[statusErr m'] evs']. simpl in *.
  assert (Generation m = Generation mc) as Hg.
  { by apply (f_equal Generation) in Hf. }
  assert (∀ ev, ev ∈ evs → isBodyRequest ev = true) as Hbody by by apply Forall_forall.
  split; [by rewrite Hgen |]. split; [| split].
  - intros m0 [Hin | Hin]%elem_of_app; [by apply Hbody in Hin |].
    destruct Hreq as [[-> _] | [[-> _] | [-> _]]];
      [by apply elem_of_nil in Hin | |];
      apply list_elem_of_singleton in Hin; by injection Hin.
  - intros m0 [Hin | Hin]%elem_of_app; [by apply Hbody in Hin |].
    destruct Hreq as [[-> _] | [[-> _] | [-> _]]];
      [by apply elem_of_nil in Hin | |];
      apply list_elem_of_singleton in Hin; discriminate.
  - intros res Hout. destruct outcome as [[res' err] | why]; [| done].
    injection Hout as -> Hjoin.
    assert (statusErr = None) as -> by (by destruct err, statusErr).
    destruct Hreq as [[_ Hne] | [(-> & Hup & _) | (_ & Hne & _)]]; [done | | done].
    split; [done | by exists evs].
Qed.

Lemma X5_status_written_once_witness :
  let r := sampleHealthy ["infrastructure-aws"] in
  let mc := sampleCluster [ManagedClusterFinalizer] [] false in
  let '(outcome, mc', evs) := Update r mc in
  Status_ObservedGeneration mc' = Generation mc
  ∧ (∀ m, EvStatusUpdate m ∈ evs → m = mc')
  ∧ (∀ m, EvUpdate m ∉ evs)
  ∧ (∀ res, outcome = Returned (res, None) →
       Status_Update r mc' = None ∧ ∃ evs0, evs = (evs0 ++ [EvStatusUpdate mc'])%list).
Proof.
  apply (X5_status_written_once (sampleHealthy ["infrastructure-aws"])
           (sampleCluster [ManagedClusterFinalizer] [] false)).
  vm_compute. left.
Defined.

(** ** How the body of the update path ends *)

Lemma updateTemplate_inv (r : ManagedClusterReconciler) (mc : ManagedCluster) :
  (∃ err template m,
     updateTemplate r mc = (Returned (Result_zero, Some err), template, m, []))
  ∨ (Spec_DryRun mc = true
     ∧ ∃ template m, updateTemplate r mc = (Returned (Result_zero, None), template, m, []))
  ∨ (Spec_DryRun mc = false
     ∧ ∃ template artifact hcChart cred m,
         Get_ClusterTemplate r (Namespace mc) (Spec_Template mc) = Ok template
         ∧ t_Valid template = true
         ∧ getSource r (t_ChartRef template) = Ok artifact
         ∧ helm_DownloadChartFromArtifact r artifact = Ok hcChart
         ∧ helm_ActionConfigInit r (Namespace mc) = None
         ∧ (∃ m', withoutStatus m' = withoutStatus mc
                  ∧ validateReleaseWithValues r m' hcChart = None)
         ∧ Get_Credential r (Namespace mc) (Spec_Credential mc) = Ok cred
         ∧ withoutStatus m = withoutStatus mc
         ∧ updateTemplate r mc = updateRelease r template cred m).
Proof.
  unfold updateTemplate.
  destruct (Get_ClusterTemplate r _ _) as [template | err]; [| left; by eauto].
  destruct (t_Valid template) eqn:Hvalid; [| left; by eauto].
  cbn [negb]. unfold updateChart.
  destruct (getSource r _) as [artifact | err] eqn:Hsource; [| left; by eauto].
  destruct (helm_DownloadChartFromArtifact r _) as [hcChart | err] eqn:Hload;
    [| left; by eauto].
  cbn [Namespace setCondition SetConditions SetKubernetesVersion].
  destruct (helm_ActionConfigInit r _) as [err |] eqn:Hinit; [left; by eauto |].
  destruct (validateReleaseWithValues r _ _) as [err |] eqn:Hval; [left; by eauto |].
  match goal with
  | |- context [updateCredential r template ?m0] =>
      destruct (Get_Credential r (Namespace m0) (Spec_Credential m0)) as [cred | err]
        eqn:Hcred;
      [rewrite (updateCredential_found r template m0 cred Hcred)
      | unfold updateCredential; rewrite Hcred; left; by eauto]
  end.
  cbv zeta. cbn [Spec_DryRun setCondition SetConditions SetKubernetesVersion].
  destruct (Spec_DryRun mc) eqn:Hdry; cbn [negb].
  - right; left. split; [done |]. by eauto.
  - right; right. split; [done |].
    eexists template, artifact, hcChart, cred, _.
    split; [done |]. split; [done |]. split; [done |]. split; [done |].
    split; [done |]. split; [eexists; split; [| exact Hval]; done |].
    split; [exact Hcred |]. split; [| reflexivity]. done.
Qed.

Lemma updateServices_result (r : ManagedClusterReconciler) (mc : ManagedCluster)
    (res : Result) :
  (updateServices r mc).1 = (res, None) → res = mkResult false DefaultRequeueInterval.
Proof.
  unfold updateServices. destruct (helmChartOpts r _ _); [| done].
  destruct (sveltos_ReconcileProfile r _ _ _); [done |]. by intros [= <-].
Qed.

Lemma updateRelease_result (r : ManagedClusterReconciler) (template : ClusterTemplate)
    (cred : Credential) (mc : ManagedCluster) (res : Result) :
  (updateRelease r template cred mc).1.1.1 = Returned (res, None) →
  res = mkResult false DefaultRequeueInterval.
Proof.
  unfold updateRelease.
  destruct (setIdentityHelmValues _ _) as [[helmValues | err] | why]; [| done..].
  destruct (helm_ReconcileHelmRelease r _ _ _) as [hr | err]; [| done].
  destruct (setStatusFromClusterStatus r _) as [[requeue [err |]] mc2].
  { by destruct requeue. }
  destruct requeue; [by intros [= <-] |].
  destruct (negb (fluxconditions_IsReady hr)); [by intros [= <-] |].
  destruct (reconcileCredentialPropagation r mc2) as [[[err |] mc3] evs]; [done |].
  pose proof (updateServices_result r mc3) as Hsvc.
  destruct (updateServices r mc3) as [[res' err'] evs']. simpl in *.
  intros [= -> ->]. by apply Hsvc.
Qed.

(** X6.  A pass of [Update] over an object that carries its finalizer and
    that returns without error returns the zero result when the object is
    in dry-run mode, and a requeue after the default interval otherwise
    (whether or not the release is ready or the workload's conditions are
    all True). *)
Theorem X6_result_of_a_clean_pass (r : ManagedClusterReconciler) (mc : ManagedCluster)
    (res : Result) :
  ManagedClusterFinalizer ∈ Finalizers mc →
  (Update r mc).1.1 = Returned (res, None) →
  res = if Spec_DryRun mc then Result_zero else mkResult false DefaultRequeueInterval.
Proof.
  intros Hfin. rewrite (Update_past_guard r mc Hfin).
  pose proof (updateTemplate_inv r (SetConditions (ledgerOnEntry r mc) mc)) as Hinv.
  cbn [Spec_DryRun SetConditions] in Hinv.
  destruct Hinv as [(err & t & m & Heq) | [(Hdry & t & m & Heq)
    | (Hdry & t & a & c & cred & m & _ & _ & _ & _ & _ & _ & _ & _ & Heq)]].
  - rewrite Heq. destruct (updateStatus r m t) as [[statusErr m'] evs'].
    simpl. by destruct statusErr.
  - rewrite Heq, Hdry. destruct (updateStatus r m t) as [[statusErr m'] evs'].
    simpl. by intros [= <- _].
  - rewrite Heq, Hdry.
    pose proof (updateRelease_result r t cred m) as Hres.
    destruct (updateRelease r t cred m) as [[[outcome t'] m1] evs].
    destruct (updateStatus r m1 t') as [[statusErr m'] evs']. simpl in *.
    destruct outcome as [[res' err] | why]; [| done].
    intros [= -> Hjoin]. apply Hres. by destruct err, statusErr.
Qed.

Lemma X6_result_of_a_clean_pass_witness :
  mkResult false DefaultRequeueInterval
  = if Spec_DryRun (sampleCluster [ManagedClusterFinalizer] [] false)
    then Result_zero else mkResult false DefaultRequeueInterval.
Proof.
  apply (X6_result_of_a_clean_pass (sampleHealthy ["infrastructure-aws"])
           (sampleCluster [ManagedClusterFinalizer] [] false)
           (mkResult false DefaultRequeueInterval)).
  - vm_compute. left.
  - vm_compute. reflexivity.
Defined.

Lemma setStatusFromClusterStatus_settled (r : ManagedClusterReconciler)
    (mc : ManagedCluster) :
  (setStatusFromClusterStatus r mc).1 = (false, None) →
  ∃ rcs, GetResourceConditions r (Namespace mc) (Name mc) = Ok rcs
         ∧ Forall (λ c, cStatus c = ConditionTrue) rcs.
Proof.
  unfold setStatusFromClusterStatus, mirrorConditions.
  destruct (GetResourceConditions r _ _) as [rcs | err].
  - rewrite mirrorConditions_from. cbn [andb fst]. intros [= Hall].
    exists rcs. split; [done |].
    apply negb_false_iff in Hall. by apply bool_decide_eq_true in Hall.
  - by destruct (IsResourceNotFound err).
Qed.

(** The requests of [updateRelease]: none, or the upsert followed by the
    requests that only a Ready release and a complete workload allow. *)
Lemma updateRelease_requests (r : ManagedClusterReconciler) (template : ClusterTemplate)
    (cred : Credential) (mc : ManagedCluster) :
  (updateRelease r template cred mc).2 = []
  ∨ ∃ helmValues late,
      let opts :=
        mkReconcileHelmReleaseOpts helmValues (ownerOf mc) (t_ChartRef template) in
      (updateRelease r template cred mc).2
      = EvReconcileHelmRelease (Name mc) (Namespace mc) opts :: late
      ∧ Forall (λ ev, isLateRequest ev = true) late
      ∧ (late ≠ [] →
         ∃ hr rcs,
           helm_ReconcileHelmRelease r (Name mc) (Namespace mc) opts = Ok hr
           ∧ fluxconditions_IsReady hr = true
           ∧ GetResourceConditions r (Namespace mc) (Name mc) = Ok rcs
           ∧ Forall (λ c, cStatus c = ConditionTrue) rcs).
Proof.
  unfold updateRelease.
  destruct (setIdentityHelmValues _ _) as [[helmValues | err] | why]; [| by left..].
  right. exists helmValues.
  destruct (helm_ReconcileHelmRelease r _ _ _) as [hr | err] eqn:Hhr;
    [| exists []; by repeat split].
  set (mc1 := match fluxconditions_Get hr fluxmeta_ReadyCondition with
              | Some _ => _ | None => _ end).
  assert (Namespace mc1 = Namespace mc ∧ Name mc1 = Name mc) as [Hns Hname].
  { subst mc1. by destruct (fluxconditions_Get hr fluxmeta_ReadyCondition). }
  pose proof (setStatusFromClusterStatus_settled r mc1) as Hsettled.
  rewrite Hns, Hname in Hsettled. clearbody mc1.
  destruct (setStatusFromClusterStatus r mc1) as [[requeue [err |]] mc2].
  { destruct requeue; exists []; by repeat split. }
  destruct requeue; [exists []; by repeat split |].
  destruct (fluxconditions_IsReady hr) eqn:Hready; cbn [negb];
    [| exists []; by repeat split].
  destruct (Hsettled eq_refl) as (rcs & Hrcs & Hall).
  destruct (reconcileCredentialPropagation_frame r mc2) as [_ Hev3].
  destruct (reconcileCredentialPropagation r mc2) as [[[err |] mc3] evs]; simpl in *.
  { exists evs. split; [done |]. split; [done |]. intros _. by exists hr, rcs. }
  pose proof (updateServices_requests r mc3) as Hev4.
  destruct (updateServices r mc3) as [res evs']; simpl in *.
  exists (evs ++ evs')%list. split; [done |]. split; [by apply Forall_app |].
  intros _. by exists hr, rcs.
Qed.

Lemma late_not_status (r : ManagedClusterReconciler) (mc : ManagedCluster)
    (template : ClusterTemplate) (ev : Event) :
  ev ∈ (updateStatus r mc template).2 → isLateRequest ev = false ∧ isReleaseUpsert ev = false.
Proof.
  pose proof (updateStatus_requests r mc template) as Hreq.
  destruct (updateStatus r mc template) as [[statusErr m'] evs']. simpl.
  destruct Hreq as [[-> _] | [[-> _] | [-> _]]]; intros Hin;
    [by apply elem_of_nil in Hin | |]; by apply list_elem_of_singleton in Hin as ->.
Qed.

(** X7.  [Update] invokes a credential-propagation routine or reconciles
    the service profile only in a pass in which the release upsert was sent
    and answered with a release that is Ready, and in which the workload's
    conditions were read and are all True. *)
Theorem X7_late_requests_need_a_ready_release (r : ManagedClusterReconciler)
    (mc : ManagedCluster) (ev : Event) :
  ev ∈ (Update r mc).2 →
  isLateRequest ev = true →
  ∃ opts hr rcs,
    EvReconcileHelmRelease (Name mc) (Namespace mc) opts ∈ (Update r mc).2
    ∧ helm_ReconcileHelmRelease r (Name mc) (Namespace mc) opts = Ok hr
    ∧ fluxconditions_IsReady hr = true
    ∧ GetResourceConditions r (Namespace mc) (Name mc) = Ok rcs
    ∧ Forall (λ c, cStatus c = ConditionTrue) rcs.
Proof.
  destruct (decide (ManagedClusterFinalizer ∈ Finalizers mc)) as [Hfin | Hfin].
  2: { unfold Update, AddFinalizer, ContainsFinalizer.
       rewrite bool_decide_eq_false_2 by done.
       destruct (Client_Update r _); simpl; by intros ->%list_elem_of_singleton. }
  rewrite (Update_past_guard r mc Hfin).
  pose proof (updateTemplate_inv r (SetConditions (ledgerOnEntry r mc) mc)) as Hinv.
  destruct Hinv as [(err & t & m & Heq) | [(Hdry & t & m & Heq)
    | (Hdry & t & a & c & cred & m & _ & _ & _ & _ & _ & _ & _ & Hm & Heq)]].
  1, 2: rewrite Heq; pose proof (late_not_status r m t ev) as Hst;
        destruct (updateStatus r m t) as [[statusErr m'] evs']; simpl in *;
        intros Hin Hlate; destruct (Hst Hin) as [Hno _]; congruence.
  rewrite Heq.
  assert (Name m = Name mc ∧ Namespace m = Namespace mc) as [Hname Hns].
  { split; [by apply (f_equal Name) in Hm | by apply (f_equal Namespace) in Hm]. }
  pose proof (updateRelease_requests r t cred m) as Hreq. rewrite Hname, Hns in Hreq.
  destruct (updateRelease r t cred m) as [[[outcome t'] m1] evs].
  pose proof (late_not_status r m1 t' ev) as Hst.
  destruct (updateStatus r m1 t') as [[statusErr m'] evs']. simpl in *.
  intros [Hin | Hin]%elem_of_app Hlate; [| destruct (Hst Hin) as [Hno _]; congruence].
  destruct Hreq as [-> | (helmValues & late & -> & Hlates & Hgate)];
    [by apply elem_of_nil in Hin |].
  apply elem_of_cons in Hin as [-> | Hin]; [done |].
  destruct Hgate as (hr & rcs & ? & ? & ? & ?);
    [intros ->; by apply elem_of_nil in Hin |].
  eexists _, hr, rcs. split; [left |]. done.
Qed.

Lemma X7_late_requests_need_a_ready_release_witness :
  let r := sampleHealthy ["infrastructure-azure"] in
  let mc := sampleCluster [ManagedClusterFinalizer] [] false in
  ∃ opts hr rcs,
    EvReconcileHelmRelease (Name mc) (Namespace mc) opts ∈ (Update r mc).2
    ∧ helm_ReconcileHelmRelease r (Name mc) (Namespace mc) opts = Ok hr
    ∧ fluxconditions_IsReady hr = true
    ∧ GetResourceConditions r (Namespace mc) (Name mc) = Ok rcs
    ∧ Forall (λ c, cStatus c = ConditionTrue) rcs.
Proof.
  apply (X7_late_requests_need_a_ready_release (sampleHealthy ["infrastructure-azure"])
           (sampleCluster [ManagedClusterFinalizer] [] false)
           (default (EvUpdate (sampleCluster [] [] false))
              ((Update (sampleHealthy ["infrastructure-azure"])
                  (sampleCluster [ManagedClusterFinalizer] [] false)).2 !! 1%nat))).
  - vm_compute. right. left.
  - vm_compute. reflexivity.
Defined.

(** X8.  A release upsert sent by [Update] is for the object's own name
    and namespace and carries the object as owner; the template was found
    and is valid, the upsert's chart reference is the template's, the
    chart's source was found and downloaded, the Helm client was
    initialised and the dry-run install of the chart validated; and the
    upsert is the first request of the pass and the only release upsert in
    it. *)
Theorem X8_release_upsert_is_for_a_validated_template (r : ManagedClusterReconciler)
    (mc : ManagedCluster) (name ns : string) (opts : ReconcileHelmReleaseOpts) :
  EvReconcileHelmRelease name ns opts ∈ (Update r mc).2 →
  name = Name mc ∧ ns = Namespace mc ∧ opts_OwnerReference opts = ownerOf mc
  ∧ (∃ template artifact hcChart m,
       Get_ClusterTemplate r (Namespace mc) (Spec_Template mc) = Ok template
       ∧ t_Valid template = true
       ∧ opts_ChartRef opts = t_ChartRef template
       ∧ getSource r (t_ChartRef template) = Ok artifact
       ∧ helm_DownloadChartFromArtifact r artifact = Ok hcChart
       ∧ helm_ActionConfigInit r (Namespace mc) = None
       ∧ withoutStatus m = withoutStatus mc
       ∧ validateReleaseWithValues r m hcChart = None)
  ∧ ∃ rest, (Update r mc).2 = EvReconcileHelmRelease name ns opts :: rest
            ∧ noReleaseUpsert rest.
Proof.
  destruct (decide (ManagedClusterFinalizer ∈ Finalizers mc)) as [Hfin | Hfin].
  2: { unfold Update, AddFinalizer, ContainsFinalizer.
       rewrite bool_decide_eq_false_2 by done.
       destruct (Client_Update r _); simpl; by intros ?%list_elem_of_singleton. }
  rewrite (Update_past_guard r mc Hfin).
  pose proof (updateTemplate_inv r (SetConditions (ledgerOnEntry r mc) mc)) as Hinv.
  cbn [Namespace Spec_Template SetConditions] in Hinv.
  destruct Hinv as [(err & t & m & Heq) | [(Hdry & t & m & Heq)
    | (Hdry & t & a & c & cred & m & Hget & Hvalid & Hsrc & Hload & Hinit
       & (m0 & Hm0 & Hval) & _ & Hm & Heq)]].
  1, 2: rewrite Heq; pose proof (late_not_status r m t
                                   (EvReconcileHelmRelease name ns opts)) as Hst;
        destruct (updateStatus r m t) as [[statusErr m'] evs']; simpl in *;
        intros Hin; by destruct (Hst Hin) as [_ Hno].
  rewrite Heq.
  assert (Name m = Name mc ∧ Namespace m = Namespace mc ∧ ownerOf m = ownerOf mc)
    as (Hname & Hns & Hown).
  { split; [by apply (f_equal Name) in Hm |].
    split; [by apply (f_equal Namespace) in Hm |].
    unfold ownerOf. f_equal; [by apply (f_equal Name) in Hm | by apply (f_equal UID) in Hm]. }
  pose proof (updateRelease_requests r t cred m) as Hreq.
  rewrite Hname, Hns, Hown in Hreq.
  destruct (updateRelease r t cred m) as [[[outcome t'] m1] evs].
  pose proof (updateStatus_noReleaseUpsert r m1 t') as Hst.
  destruct (updateStatus r m1 t') as [[statusErr m'] evs']. simpl in *.
  assert (∀ l, Forall (λ ev, isLateRequest ev = true) l → noReleaseUpsert l) as Hlate.
  { intros l Hl. eapply Forall_impl; [exact Hl |]. by intros []. }
  destruct Hreq as [-> | (helmValues & late & -> & Hlates & _)].
  { intros Hin. by apply (noReleaseUpsert_elem _ _ _ _ Hst) in Hin. }
  intros [Heq' | Hin]%elem_of_cons.
  - injection Heq' as -> -> ->. split; [done |]. split; [done |]. split; [done |].
    split.
    + exists t, a, c, m0. cbn [SetConditions] in Hm0. by repeat split.
    + eexists. split; [reflexivity |]. apply Forall_app. split; [by apply Hlate | done].
  - exfalso. apply elem_of_app in Hin as [Hin | Hin].
    + by apply (noReleaseUpsert_elem _ _ _ _ (Hlate _ Hlates)) in Hin.
    + by apply (noReleaseUpsert_elem _ _ _ _ Hst) in Hin.
Qed.

Lemma X8_release_upsert_is_for_a_validated_template_witness :
  let r := sampleHealthy ["infrastructure-aws"] in
  let mc := sampleCluster [ManagedClusterFinalizer] [] false in
  let opts :=
    mkReconcileHelmReleaseOpts
      (JSONObject (identityValues sampleConfig (sampleCredential "Ready")))
      (ownerOf mc) (Some sampleChartRef) in
  "dev" = Name mc ∧ "default" = Namespace mc ∧ opts_OwnerReference opts = ownerOf mc
  ∧ (∃ template artifact hcChart m,
       Get_ClusterTemplate r (Namespace mc) (Spec_Template mc) = Ok template
       ∧ t_Valid template = true
       ∧ opts_ChartRef opts = t_ChartRef template
       ∧ getSource r (t_ChartRef template) = Ok artifact
       ∧ helm_DownloadChartFromArtifact r artifact = Ok hcChart
       ∧ helm_ActionConfigInit r (Namespace mc) = None
       ∧ withoutStatus m = withoutStatus mc
       ∧ validateReleaseWithValues r m hcChart = None)
  ∧ ∃ rest, (Update r mc).2 = EvReconcileHelmRelease "dev" "default" opts :: rest
            ∧ noReleaseUpsert rest.
Proof.
  apply (X8_release_upsert_is_for_a_validated_template
           (sampleHealthy ["infrastructure-aws"])
           (sampleCluster [ManagedClusterFinalizer] [] false) "dev" "default"
           (mkReconcileHelmReleaseOpts
              (JSONObject (identityValues sampleConfig (sampleCredential "Ready")))
              (ownerOf (sampleCluster [ManagedClusterFinalizer] [] false))
              (Some sampleChartRef))).
  vm_compute. left.
Defined.

(** X9.  A pass of [Update] over an object that carries its finalizer, is
    not in dry-run mode and has no configuration never succeeds: it either
    returns an error with the zero result, or, once the template is found
    valid and the credential is found, panics on the nil configuration.
    The only request such a pass sends is the status write, and the
    observed generation is set all the same. *)
Theorem X9_missing_config_never_settles (r : ManagedClusterReconciler)
    (mc : ManagedCluster) :
  ManagedClusterFinalizer ∈ Finalizers mc →
  Spec_DryRun mc = false →
  Spec_Config mc = None →
  let '(outcome, mc', evs) := Update r mc in
  ((∃ err, outcome = Returned (Result_zero, Some err))
   ∨ (outcome = Panicked "invalid memory address or nil pointer dereference"
      ∧ ∃ template cred,
          Get_ClusterTemplate r (Namespace mc) (Spec_Template mc) = Ok template
          ∧ t_Valid template = true
          ∧ Get_Credential r (Namespace mc) (Spec_Credential mc) = Ok cred))
  ∧ (∀ ev, ev ∈ evs → ev = EvStatusUpdate mc')
  ∧ Status_ObservedGeneration mc' = Generation mc.
Proof.
  intros Hfin Hdry Hcfg. rewrite (Update_past_guard r mc Hfin).
  pose proof (updateTemplate_inv r (SetConditions (ledgerOnEntry r mc) mc)) as Hinv.
  cbn [Namespace Spec_Template Spec_Credential Spec_DryRun SetConditions] in Hinv.
  assert (∀ body : BodyResult,
            withoutStatus body.1.2 = withoutStatus mc → body.2 = [] →
            let '(outcome, template, m, evs) := body in
            let '(statusErr, m', evs') := updateStatus r m template in
            (∀ ev, ev ∈ (evs ++ evs')%list → ev = EvStatusUpdate m')
            ∧ Status_ObservedGeneration m' = Generation mc) as Hrest.
  { intros [[[outcome t] m] evs] Hm Hevs. simpl in Hm, Hevs. subst evs.
    destruct (updateStatus_frame r m t) as [_ Hgen].
    pose proof (updateStatus_requests r m t) as Hreq.
    destruct (updateStatus r m t) as [[statusErr m'] evs']. simpl in *.
    split; [| rewrite Hgen; by apply (f_equal Generation) in Hm].
    intros ev Hin.
    destruct Hreq as [[-> _] | [[-> _] | [-> _]]];
      [by apply elem_of_nil in Hin | |]; by apply list_elem_of_singleton in Hin. }
  destruct (updateTemplate_frame r (SetConditions (ledgerOnEntry r mc) mc)) as [Hframe _].
  specialize (Hrest (updateTemplate r (SetConditions (ledgerOnEntry r mc) mc)) Hframe).
  destruct Hinv as [(err & t & m & Heq) | [(Hdry' & _) | (_ & t & a & c & cred & m
    & Hget & Hvalid & _ & _ & _ & _ & Hcred & Hm & Heq)]]; [| congruence |].
  - rewrite Heq in Hrest |- *. specialize (Hrest eq_refl).
    destruct (updateStatus r m t) as [[statusErr m'] evs'].
    split; [| done]. left. destruct statusErr; by eexists.
  - assert (updateRelease r t cred m
            = (Panicked "invalid memory address or nil pointer dereference", t, m, []))
      as Hpanic.
    { unfold updateRelease.
      replace (Spec_Config m) with (Spec_Config mc)
        by (by apply (f_equal Spec_Config) in Hm).
      by rewrite Hcfg. }
    rewrite Heq, Hpanic in Hrest |- *. specialize (Hrest eq_refl).
    destruct (updateStatus r m t) as [[statusErr m'] evs'].
    split; [| done]. right. split; [done |]. by exists t, cred.
Qed.

Lemma X9_missing_config_never_settles_witness :
  let r := sampleHealthy ["infrastructure-aws"] in
  let mc := sampleClusterWithoutConfig in
  let '(outcome, mc', evs) := Update r mc in
  ((∃ err, outcome = Returned (Result_zero, Some err))
   ∨ (outcome = Panicked "invalid memory address or nil pointer dereference"
      ∧ ∃ template cred,
          Get_ClusterTemplate r (Namespace mc) (Spec_Template mc) = Ok template
          ∧ t_Valid template = true
          ∧ Get_Credential r (Namespace mc) (Spec_Credential mc) = Ok cred))
  ∧ (∀ ev, ev ∈ evs → ev = EvStatusUpdate mc')
  ∧ Status_ObservedGeneration mc' = Generation mc.
Proof.
  apply (X9_missing_config_never_settles (sampleHealthy ["infrastructure-aws"])
           sampleClusterWithoutConfig).
  - vm_compute. left.
  - reflexivity.
  - reflexivity.
Defined.

(** ** The entry point, over two passes *)

(** X10.  The first pass of [Reconcile] over a new object (nothing
    observed, no finalizer, the Management object readable) reports the
    creation to telemetry, adds the finalizer, sends the update of the
    object and returns, without writing the status; so the next pass, which
    reads the object as that update left it, reports the creation to
    telemetry a second time. *)
Theorem X10_creation_is_reported_again (r : ManagedClusterReconciler)
    (namespace name : string) (mc : ManagedCluster) (mgmtUID : string) :
  Get_ManagedCluster r namespace name = Ok mc →
  Deleting mc = false →
  Status_ObservedGeneration mc = 0 →
  ManagedClusterFinalizer ∉ Finalizers mc →
  Get_Management r = Ok mgmtUID →
  ∃ mc1,
    Reconcile r namespace name
    = (Returned (Result_zero,
                 match Client_Update r mc1 with
                 | Some err =>
                     Some (Errorf_w ("failed to update managedCluster "
                                     +:+ nsName (Namespace mc) (Name mc) +:+ ": ") err)
                 | None => None
                 end),
       Some mc1,
       [EvTrackManagedClusterCreate mgmtUID (UID mc) (Spec_Template mc) (Spec_DryRun mc);
        EvUpdate mc1])
    ∧ mc1 = SetFinalizers (Finalizers mc ++ [ManagedClusterFinalizer])%list mc
    ∧ ∀ r' mgmtUID',
        Get_ManagedCluster r' namespace name = Ok mc1 →
        Get_Management r' = Ok mgmtUID' →
        ∃ rest,
          (Reconcile r' namespace name).2
          = EvTrackManagedClusterCreate mgmtUID' (UID mc) (Spec_Template mc)
              (Spec_DryRun mc) :: rest.
Proof.
  intros Hget Hlive Hgen Hfin Hmgmt.
  exists (SetFinalizers (Finalizers mc ++ [ManagedClusterFinalizer])%list mc).
  split; [| split; [done |]].
  - unfold Reconcile. rewrite Hget, Hlive, Hgen, Hmgmt.
    rewrite bool_decide_eq_true_2 by done.
    unfold Update, AddFinalizer, ContainsFinalizer.
    rewrite bool_decide_eq_false_2 by done.
    by destruct (Client_Update r _).
  - intros r' mgmtUID' Hget' Hmgmt'. unfold Reconcile. rewrite Hget', Hmgmt'.
    cbn [Deleting Status_ObservedGeneration SetFinalizers]. rewrite Hlive, Hgen.
    rewrite bool_decide_eq_true_2 by done.
    destruct (Update r' _) as [[outcome mc2] evs]. by eexists.
Qed.

Lemma X10_creation_is_reported_again_witness :
  let mc := sampleNewCluster in
  let r := sampleServing (sampleHealthy ["infrastructure-aws"]) mc [] in
  ∃ mc1,
    Reconcile r "default" "dev"
    = (Returned (Result_zero,
                 match Client_Update r mc1 with
                 | Some err =>
                     Some (Errorf_w ("failed to update managedCluster "
                                     +:+ nsName (Namespace mc) (Name mc) +:+ ": ") err)
                 | None => None
                 end),
       Some mc1,
       [EvTrackManagedClusterCreate "mgmt-uid" (UID mc) (Spec_Template mc) (Spec_DryRun mc);
        EvUpdate mc1])
    ∧ mc1 = SetFinalizers (Finalizers mc ++ [ManagedClusterFinalizer])%list mc
    ∧ ∀ r' mgmtUID',
        Get_ManagedCluster r' "default" "dev" = Ok mc1 →
        Get_Management r' = Ok mgmtUID' →
        ∃ rest,
          (Reconcile r' "default" "dev").2
          = EvTrackManagedClusterCreate mgmtUID' (UID mc) (Spec_Template mc)
              (Spec_DryRun mc) :: rest.
Proof.
  apply (X10_creation_is_reported_again
           (sampleServing (sampleHealthy ["infrastructure-aws"]) sampleNewCluster [])
           "default" "dev" sampleNewCluster "mgmt-uid").
  - reflexivity.
  - reflexivity.
  - reflexivity.
  - vm_compute. intros Hin. inversion Hin.
  - reflexivity.
Defined.

(** ** The two paths *)

Lemma releaseProviders_requests (r : ManagedClusterReconciler) (namespace name : string)
    (providers : list string) :
  Forall (λ ev, isTeardownRequest ev = true) (releaseProviders r namespace name providers).2.
Proof.
  induction providers as [|provider rest IH]; cbn [releaseProviders]; [constructor |].
  destruct (providerGVKs !! provider) as [gvk |]; [| done].
  destruct (getCluster r namespace name gvk) as [cluster | err].
  2: { destruct (bool_decide (provider = "aws") && IsNotFound err); constructor. }
  destruct (objectsAvailable r namespace (pom_Name cluster) gvkMachine) as [found | err];
    [| constructor].
  destruct found; [done |]. cbn [negb]. unfold removeClusterFinalizer.
  destruct (RemoveFinalizer _ _) as [fs removed].
  destruct removed; [| constructor].
  destruct (Client_Patch r _); by repeat constructor.
Qed.

(** X11.  [Reconcile] of an object whose deletion is requested sends
    nothing but teardown requests (release deletion, profile deletion, the
    patch of a workload) and the update that removes the object's own
    finalizer; [Reconcile] of an object whose deletion is not requested
    sends no teardown request. *)
Theorem X11_update_and_teardown_do_not_mix (r : ManagedClusterReconciler)
    (namespace name : string) (mc : ManagedCluster) :
  Get_ManagedCluster r namespace name = Ok mc →
  let evs := (Reconcile r namespace name).2 in
  if Deleting mc
  then ∀ ev, ev ∈ evs →
         isTeardownRequest ev = true
         ∨ ev = EvUpdate (SetFinalizers (RemoveFinalizer (Finalizers mc)
                                           ManagedClusterFinalizer).1 mc)
  else ∀ ev, ev ∈ evs → isTeardownRequest ev = false.
Proof.
  intros Hget evs. subst evs. unfold Reconcile. rewrite Hget.
  destruct (Deleting mc) eqn:Hdel.
  - destruct (Get_HelmRelease r (Namespace mc) (Name mc)) as [hr | e] eqn:Hhr.
    + destruct (Delete_release_present r mc hr Hhr) as [providers Hprefix].
      pose proof (releaseProviders_requests r (Namespace mc) (Name mc) providers) as Hreq.
      destruct (Delete r mc) as [[res mc'] evs]. simpl in *.
      intros ev Hin. left. apply (elem_of_prefix _ _ _ Hin) in Hprefix.
      apply elem_of_cons in Hprefix as [-> | Hprefix]; [done |].
      apply elem_of_cons in Hprefix as [-> | Hprefix]; [done |].
      by apply (proj1 (Forall_forall _ _) Hreq).
    + unfold Delete. rewrite Hhr.
      destruct (IsNotFound e); [| intros ev Hin; by apply elem_of_nil in Hin].
      destruct (RemoveFinalizer (Finalizers mc) ManagedClusterFinalizer) as [fs removed].
      destruct removed; [| intros ev Hin; by apply elem_of_nil in Hin].
      destruct (Client_Update r _); simpl;
        intros ev Hin%list_elem_of_singleton; by right.
  - assert (∀ ev, ev ∈ (Update r mc).2 → isTeardownRequest ev = false) as Hupd.
    { destruct (decide (ManagedClusterFinalizer ∈ Finalizers mc)) as [Hfin | Hfin].
      - rewrite (Update_past_guard r mc Hfin).
        destruct (updateTemplate_frame r (SetConditions (ledgerOnEntry r mc) mc))
          as [_ Hbody].
        destruct (updateTemplate r _) as [[[outcome t] m] evs].
        pose proof (updateStatus_requests r m t) as Hreq.
        destruct (updateStatus r m t) as [[statusErr m'] evs']. simpl in *.
        intros ev [Hin | Hin]%elem_of_app.
        + apply (proj1 (Forall_forall _ _) Hbody) in Hin. by destruct ev.
        + destruct Hreq as [[-> _] | [[-> _] | [-> _]]];
            [by apply elem_of_nil in Hin | |];
            by apply list_elem_of_singleton in Hin as ->.
      - unfold Update, AddFinalizer, ContainsFinalizer.
        rewrite bool_decide_eq_false_2 by done.
        destruct (Client_Update r _); simpl;
          by intros ev ->%list_elem_of_singleton. }
    case_bool_decide.
    + destruct (Get_Management r); [| intros ev Hin; by apply elem_of_nil in Hin].
      destruct (Update r mc) as [[outcome mc'] evs]. simpl in *.
      intros ev [-> | Hin]%elem_of_cons; [done | by apply Hupd].
    + destruct (Update r mc) as [[outcome mc'] evs]. simpl in *. done.
Qed.

Lemma X11_update_and_teardown_do_not_mix_witness :
  let mc := sampleDeletingCluster [ManagedClusterFinalizer] in
  let r := sampleServing (sampleHealthy ["infrastructure-aws"]) mc [] in
  Forall (λ ev, isTeardownRequest ev = true
                ∨ ev = EvUpdate (SetFinalizers (RemoveFinalizer (Finalizers mc)
                                                  ManagedClusterFinalizer).1 mc))
    (Reconcile r "default" "dev").2.
Proof.
  apply Forall_forall.
  apply (X11_update_and_teardown_do_not_mix
           (sampleServing (sampleHealthy ["infrastructure-aws"])
              (sampleDeletingCluster [ManagedClusterFinalizer]) [])
           "default" "dev" (sampleDeletingCluster [ManagedClusterFinalizer])).
  reflexivity.
Defined.

(** ** The teardown of the workload *)

Lemma providerGVKs_lookup (provider : string) (gvk : GroupVersionKind) :
  providerGVKs !! provider = Some gvk →
  (provider = "aws" ∧ gvk = gvkAWSCluster) ∨ (provider = "azure" ∧ gvk = gvkAzureCluster).
Proof.
  unfold providerGVKs. rewrite lookup_insert. case_decide as Haws.
  - intros [= <-]. by left.
  - rewrite lookup_insert. case_decide as Hazure; [| by rewrite lookup_empty].
    intros [= <-]. by right.
Qed.

Lemma releaseProviders_skip (r : ManagedClusterReconciler) (namespace name : string)
    (skipped rest : list string) :
  Forall (λ p, providerGVKs !! p = None) skipped →
  releaseProviders r namespace name (skipped ++ rest)
  = releaseProviders r namespace name rest.
Proof.
  induction 1 as [|p skipped Hp _ IH]; [done |].
  cbn [app releaseProviders]. by rewrite Hp.
Qed.

Lemma releaseProviders_patch (r : ManagedClusterReconciler) (namespace name : string)
    (providers : list string) :
  (releaseProviders r namespace name providers).2 = []
  ∨ ∃ provider gvk cluster,
      provider ∈ providers
      ∧ providerGVKs !! provider = Some gvk
      ∧ getCluster r namespace name gvk = Ok cluster
      ∧ BlockingFinalizer ∈ pom_Finalizers cluster
      ∧ objectsAvailable r namespace (pom_Name cluster) gvkMachine = Ok false
      ∧ (releaseProviders r namespace name providers).2 = [EvPatchCluster (unblocked cluster)].
Proof.
  induction providers as [|provider rest IH]; cbn [releaseProviders]; [by left |].
  assert (∀ evs : list Event,
            (evs = [] ∨ ∃ provider' gvk cluster,
               provider' ∈ rest ∧ providerGVKs !! provider' = Some gvk
               ∧ getCluster r namespace name gvk = Ok cluster
               ∧ BlockingFinalizer ∈ pom_Finalizers cluster
               ∧ objectsAvailable r namespace (pom_Name cluster) gvkMachine = Ok false
               ∧ evs = [EvPatchCluster (unblocked cluster)]) →
            evs = [] ∨ ∃ provider' gvk cluster,
               provider' ∈ provider :: rest ∧ providerGVKs !! provider' = Some gvk
               ∧ getCluster r namespace name gvk = Ok cluster
               ∧ BlockingFinalizer ∈ pom_Finalizers cluster
               ∧ objectsAvailable r namespace (pom_Name cluster) gvkMachine = Ok false
               ∧ evs = [EvPatchCluster (unblocked cluster)]) as Hlift.
  { intros evs [-> | (p & g & c & Hin & Hrest)]; [by left |].
    right. exists p, g, c. split; [by right | done]. }
  destruct (providerGVKs !! provider) as [gvk |] eqn:Hgvk; [| by apply Hlift].
  destruct (getCluster r namespace name gvk) as [cluster | err] eqn:Hcluster.
  2: { destruct (bool_decide (provider = "aws") && IsNotFound err); by left. }
  destruct (objectsAvailable r namespace (pom_Name cluster) gvkMachine)
    as [found | err] eqn:Hfound; [| by left].
  destruct found; [by apply Hlift |]. cbn [negb]. unfold removeClusterFinalizer.
  pose proof (RemoveFinalizer_removed (pom_Finalizers cluster) BlockingFinalizer) as Hremoved.
  unfold RemoveFinalizer in *. cbn [fst snd] in Hremoved.
  destruct (negb _); [| by left].
  right. exists provider, gvk, cluster.
  split; [left |]. split; [done |]. split; [done |]. split; [by apply Hremoved |].
  split; [done |]. by destruct (Client_Patch r _).
Qed.

(** X12.  [releaseCluster] sends at most one request: the patch of the
    workload object of an aws or azure provider of the template that
    removes the blocking finalizer from it, and only when that object
    carried the finalizer and no Machine of the cluster is listed any
    more. *)
Theorem X12_at_most_one_workload_is_unblocked (r : ManagedClusterReconciler)
    (namespace name templateName : string) :
  let evs := (releaseCluster r namespace name templateName).2 in
  evs = []
  ∨ ∃ provider gvk cluster,
      ((provider = "aws" ∧ gvk = gvkAWSCluster)
       ∨ (provider = "azure" ∧ gvk = gvkAzureCluster))
      ∧ (∃ providers, getInfraProvidersNames r namespace templateName = Ok providers
                      ∧ provider ∈ providers)
      ∧ getCluster r namespace name gvk = Ok cluster
      ∧ BlockingFinalizer ∈ pom_Finalizers cluster
      ∧ objectsAvailable r namespace (pom_Name cluster) gvkMachine = Ok false
      ∧ evs = [EvPatchCluster (unblocked cluster)].
Proof.
  intros evs. subst evs. unfold releaseCluster.
  destruct (getInfraProvidersNames r namespace templateName) as [providers | err];
    [| by left].
  destruct (releaseProviders_patch r namespace name providers)
    as [Hnone | (p & g & c & Hin & Hgvk & Hrest)]; [by left |].
  right. exists p, g, c. split; [by apply providerGVKs_lookup |].
  split; [by exists providers | done].
Qed.

(** X13.  When the first provider of the template that has a workload
    kind (the ones before it having none) has no workload object listed for
    the cluster, [releaseCluster] sends nothing and returns the error
    "<Kind> with name <name> was not found": the error is not recognised as
    a not-found error, also for aws, and the providers after it are not
    looked at. *)
Theorem X13_missing_workload_is_an_error (r : ManagedClusterReconciler)
    (namespace name templateName provider : string) (skipped rest : list string)
    (gvk : GroupVersionKind) :
  getInfraProvidersNames r namespace templateName = Ok (skipped ++ provider :: rest)%list →
  Forall (λ p, providerGVKs !! p = None) skipped →
  providerGVKs !! provider = Some gvk →
  List_PartialObjectMetadata r gvk namespace FluxHelmChartNameKey name = Ok [] →
  releaseCluster r namespace name templateName
  = (Some (errors_New (Kind gvk +:+ " with name " +:+ name +:+ " was not found")), []).
Proof.
  intros Hproviders Hskipped Hgvk Hlist. unfold releaseCluster.
  rewrite Hproviders, (releaseProviders_skip _ _ _ _ _ Hskipped).
  cbn [releaseProviders]. rewrite Hgvk. unfold getCluster. rewrite Hlist.
  unfold IsNotFound, errors_New. cbn [hasKind].
  rewrite (bool_decide_eq_false_2 (OtherError = ApiNotFound)) by done.
  by destruct (bool_decide (provider = "aws")).
Qed.

Lemma X13_missing_workload_is_an_error_witness :
  releaseCluster (sampleHealthy ["infrastructure-openstack"; "infrastructure-aws"])
    "default" "dev" "aws-standalone-cp-0-0-1"
  = (Some (errors_New (Kind gvkAWSCluster +:+ " with name " +:+ "dev" +:+ " was not found")),
     []).
Proof.
  apply (X13_missing_workload_is_an_error
           (sampleHealthy ["infrastructure-openstack"; "infrastructure-aws"])
           "default" "dev" "aws-standalone-cp-0-0-1" "aws" ["openstack"] []
           gvkAWSCluster).
  - reflexivity.
  - repeat constructor.
  - reflexivity.
  - reflexivity.
Defined.

(** X14.  A pass of [Delete] that returns without error is one of two:
    the release was still found, the pass asks for a requeue after the
    default interval and leaves the object as it was; or the release lookup
    answered NotFound, the pass returns the zero result, the object's own
    finalizer is gone from the object, and the update that removed it was
    accepted. *)
Theorem X14_clean_teardown_pass (r : ManagedClusterReconciler) (mc : ManagedCluster)
    (res : Result) :
  (Delete r mc).1.1 = (res, None) →
  let mc' := (Delete r mc).1.2 in
  (∃ hr, Get_HelmRelease r (Namespace mc) (Name mc) = Ok hr
         ∧ res = mkResult false DefaultRequeueInterval ∧ mc' = mc)
  ∨ (∃ e, Get_HelmRelease r (Namespace mc) (Name mc) = Err e ∧ IsNotFound e = true
          ∧ res = Result_zero
          ∧ mc' = SetFinalizers (filter (λ f, f ≠ ManagedClusterFinalizer) (Finalizers mc)) mc
          ∧ (ManagedClusterFinalizer ∈ Finalizers mc → Client_Update r mc' = None)).
Proof.
  unfold Delete.
  pose proof (RemoveFinalizer_removed (Finalizers mc) ManagedClusterFinalizer) as Hremoved.
  unfold RemoveFinalizer in *. cbn [fst snd] in Hremoved.
  destruct (Get_HelmRelease r (Namespace mc) (Name mc)) as [hr | e].
  - destruct (helm_DeleteHelmRelease r _ _); [done |].
    destruct (sveltos_DeleteProfile r _ _); [done |].
    destruct (releaseCluster r _ _ _) as [[err |] evs]; [done |].
    intros [= <-]. left. by exists hr.
  - destruct (IsNotFound e) eqn:Hnf; [| done].
    destruct (negb _) eqn:Hneg.
    + destruct (Client_Update r _) eqn:Hup; [done |]. intros [= <-]. right.
      exists e. by repeat split.
    + intros [= <-]. right. exists e. repeat split; try done.
      intros Hin. apply Hremoved in Hin. congruence.
Qed.

Lemma X14_clean_teardown_pass_witness :
  let r :=
    sampleReconciler (Ok (sampleTemplate true ["infrastructure-aws"]))
      (Ok (sampleCredential "Ready")) (Err (notFound "helmrelease")) [] [] None None [] in
  let mc := sampleDeletingCluster [ManagedClusterFinalizer] in
  let mc' := (Delete r mc).1.2 in
  (∃ hr, Get_HelmRelease r (Namespace mc) (Name mc) = Ok hr
         ∧ Result_zero = mkResult false DefaultRequeueInterval ∧ mc' = mc)
  ∨ (∃ e, Get_HelmRelease r (Namespace mc) (Name mc) = Err e ∧ IsNotFound e = true
          ∧ Result_zero = Result_zero
          ∧ mc' = SetFinalizers (filter (λ f, f ≠ ManagedClusterFinalizer) (Finalizers mc)) mc
          ∧ (ManagedClusterFinalizer ∈ Finalizers mc → Client_Update r mc' = None)).
Proof.
  apply (X14_clean_teardown_pass
           (sampleReconciler (Ok (sampleTemplate true ["infrastructure-aws"]))
              (Ok (sampleCredential "Ready")) (Err (notFound "helmrelease")) [] [] None
              None [])
           (sampleDeletingCluster [ManagedClusterFinalizer]) Result_zero).
  vm_compute. reflexivity.
Defined.

(** ** The propagation loop *)




Lemma elem_of_routineProviders (p : string) :
  p ∈ routineProviders ↔ p = "azure" ∨ p = "vsphere".
Proof.
  unfold routineProviders. rewrite !elem_of_cons, elem_of_nil. tauto.
Qed.

Lemma propagateProviders_routines (r : ManagedClusterReconciler) (secret : string)
    (providers : list string) (mc : ManagedCluster) :
  let '(err, _, evs) := propagateProviders r secret providers mc in
  omap routineOf evs `prefix_of` filter (λ p, p ∈ routineProviders) providers
  ∧ (err = None → omap routineOf evs = filter (λ p, p ∈ routineProviders) providers)
  ∧ ∀ ev, ev ∈ evs →
      ∃ cfg, propagationCfgOf ev = Some cfg
             ∧ cfg_KubeconfSecret cfg = secret
             ∧ cfg_SystemNamespace cfg = SystemNamespace r
             ∧ withoutStatus (cfg_ManagedCluster cfg) = withoutStatus mc.
Proof.
  revert mc. induction providers as [|provider rest IH]; intros mc;
    cbn [propagateProviders].
  { split; [done |]. split; [done |]. intros ev Hin. by apply elem_of_nil in Hin. }
  rewrite filter_cons.
  case_bool_decide as Haws.
  { subst provider.
    rewrite decide_False by (rewrite elem_of_routineProviders; by intros [? | ?]).
    apply IH. }
  case_bool_decide as Hazure.
  { subst provider. rewrite decide_True by (rewrite elem_of_routineProviders; by left).
    destruct (credspropagation_PropagateAzureSecrets r _) as [err |]; simpl.
    - split; [by apply prefix_cons, prefix_nil |]. split; [done |].
      intros ev ->%list_elem_of_singleton. by eexists.
    - specialize (IH (setCondition (credentialsPropagated ConditionTrue SucceededReason
                                      "Azure CCM credentials created") mc)).
      destruct (propagateProviders r secret rest _) as [[err mc'] evs]; simpl in *.
      destruct IH as (Hpre & Heq & Hcfg).
      split; [by apply prefix_cons |]. split; [intros He; f_equal; by apply Heq |].
      intros ev [-> | Hin]%elem_of_cons; [by eexists | by apply Hcfg]. }
  case_bool_decide as Hvsphere.
  { subst provider. rewrite decide_True by (rewrite elem_of_routineProviders; by right).
    destruct (credspropagation_PropagateVSphereSecrets r _) as [err |]; simpl.
    - split; [by apply prefix_cons, prefix_nil |]. split; [done |].
      intros ev ->%list_elem_of_singleton. by eexists.
    - specialize (IH (setCondition (credentialsPropagated ConditionTrue SucceededReason
                                      "vSphere CCM credentials created") mc)).
      destruct (propagateProviders r secret rest _) as [[err mc'] evs]; simpl in *.
      destruct IH as (Hpre & Heq & Hcfg).
      split; [by apply prefix_cons |]. split; [intros He; f_equal; by apply Heq |].
      intros ev [-> | Hin]%elem_of_cons; [by eexists | by apply Hcfg]. }
  rewrite decide_False by (rewrite elem_of_routineProviders; by intros [? | ?]).
  apply (IH (setCondition _ mc)).
Qed.

(** X16.  When the provider names and the kubeconfig secret are read,
    the routines [reconcileCredentialPropagation] invokes are, in order, a
    prefix of the azure and vsphere entries of the provider list (all of
    them when the pass returns no error), and every invocation is handed
    the secret read, the system namespace and the object with its metadata
    and spec as on entry. *)
Theorem X16_routines_run_in_provider_order (r : ManagedClusterReconciler)
    (mc : ManagedCluster) (providers : list string) (secret : string) :
  getInfraProvidersNames r (Namespace mc) (Spec_Template mc) = Ok providers →
  Get_Secret r (Namespace mc) (Name mc +:+ "-kubeconfig") = Ok secret →
  let '(err, _, evs) := reconcileCredentialPropagation r mc in
  omap routineOf evs `prefix_of` filter (λ p, p ∈ routineProviders) providers
  ∧ (err = None → omap routineOf evs = filter (λ p, p ∈ routineProviders) providers)
  ∧ ∀ ev, ev ∈ evs →
      ∃ cfg, propagationCfgOf ev = Some cfg
             ∧ cfg_KubeconfSecret cfg = secret
             ∧ cfg_SystemNamespace cfg = SystemNamespace r
             ∧ withoutStatus (cfg_ManagedCluster cfg) = withoutStatus mc.
Proof.
  intros Hproviders Hsecret. unfold reconcileCredentialPropagation.
  rewrite Hproviders, Hsecret. apply propagateProviders_routines.
Qed.

Lemma X16_routines_run_in_provider_order_witness :
  let providers := ["vsphere"; "aws"; "azure"] in
  let r := sampleHealthy ((λ p, infraPrefix +:+ p) <$> providers) in
  let mc := sampleCluster [ManagedClusterFinalizer] [] false in
  let '(err, _, evs) := reconcileCredentialPropagation r mc in
  omap routineOf evs `prefix_of` filter (λ p, p ∈ routineProviders) providers
  ∧ (err = None → omap routineOf evs = filter (λ p, p ∈ routineProviders) providers)
  ∧ ∀ ev, ev ∈ evs →
      ∃ cfg, propagationCfgOf ev = Some cfg
             ∧ cfg_KubeconfSecret cfg = "dev-kubeconfig"
             ∧ cfg_SystemNamespace cfg = SystemNamespace r
             ∧ withoutStatus (cfg_ManagedCluster cfg) = withoutStatus mc.
Proof.
  apply (X16_routines_run_in_provider_order
           (sampleHealthy ((λ p, infraPrefix +:+ p) <$> ["vsphere"; "aws"; "azure"]))
           (sampleCluster [ManagedClusterFinalizer] [] false)
           ["vsphere"; "aws"; "azure"] "dev-kubeconfig").
  - vm_compute. reflexivity.
  - vm_compute. reflexivity.
Defined.

(** ** The ClusterTemplateChain watch *)

Lemma chainRequestsFrom_ok
    (listManagedClusters : string → string → result (list ManagedCluster))
    (chainNamespace : string) (templates : list string) (req : list Request)
    (clustersOf : string → list ManagedCluster) :
  Forall (λ t, listManagedClusters chainNamespace t = Ok (clustersOf t)) templates →
  chainRequestsFrom listManagedClusters chainNamespace templates req
  = (req ++ (templates ≫= λ t, (λ c, (Namespace c, Name c)) <$> clustersOf t))%list.
Proof.
  intros Hall. revert req. induction Hall as [|t templates Ht _ IH]; intros req.
  - by rewrite app_nil_r.
  - cbn [chainRequestsFrom]. rewrite Ht, IH. cbn [mbind list_bind]. by rewrite app_assoc.
Qed.

Lemma chainRequestsFrom_failed
    (listManagedClusters : string → string → result (list ManagedCluster))
    (chainNamespace : string) (templates : list string) (req : list Request) :
  Exists (λ t, ∃ e, listManagedClusters chainNamespace t = Err e) templates →
  chainRequestsFrom listManagedClusters chainNamespace templates req = [].
Proof.
  intros Hex. revert req. induction Hex as [t templates [e He] | t templates _ IH];
    intros req; cbn [chainRequestsFrom].
  - by rewrite He.
  - by destruct (listManagedClusters chainNamespace t).
Qed.

(** X17.  The map function of the ClusterTemplateChain watch enqueues
    nothing at all when the listing fails for any template of the chain
    (also when listings before it succeeded), and otherwise one request per
    listed ManagedCluster, by namespace and name, template after template
    in the chain's order, duplicates included. *)
Theorem X17_chain_watch_enqueues_all_or_nothing
    (listManagedClusters : string → string → result (list ManagedCluster))
    (chainNamespace : string) (templates : list string) :
  (Exists (λ t, ∃ e, listManagedClusters chainNamespace t = Err e) templates →
   chainRequests listManagedClusters chainNamespace templates = [])
  ∧ (∀ clustersOf,
       Forall (λ t, listManagedClusters chainNamespace t = Ok (clustersOf t)) templates →
       chainRequests listManagedClusters chainNamespace templates
       = templates ≫= λ t, (λ c, (Namespace c, Name c)) <$> clustersOf t).
Proof.
  split.
  - apply chainRequestsFrom_failed.
  - intros clustersOf Hall. unfold chainRequests.
    by rewrite (chainRequestsFrom_ok _ _ _ _ clustersOf Hall).
Qed.

(** ** The release poller *)

Lemma CreateOrUpdate_cases {A : Type} `{EqDecision A}
    (get : result A) (create update : A → option error)
    (created updated : A → PollerEvent) (obj : A) (mutate : A → A) :
  let '(op, o, evs) := CreateOrUpdate get create update created updated obj mutate in
  (∃ e, get = Err e ∧ IsNotFound e = false ∧ op = Err e ∧ evs = [])
  ∨ (∃ e, get = Err e ∧ IsNotFound e = true ∧ o = mutate obj ∧ evs = [created o]
          ∧ op = match create o with
                 | Some e' => Err e'
                 | None => Ok OperationResultCreated
                 end)
  ∨ (∃ existing, get = Ok existing ∧ o = mutate existing
                 ∧ ((mutate existing = existing ∧ evs = [] ∧ op = Ok OperationResultNone)
                    ∨ (mutate existing ≠ existing ∧ evs = [updated o]
                       ∧ op = match update o with
                              | Some e' => Err e'
                              | None => Ok OperationResultUpdated
                              end))).
Proof.
  unfold CreateOrUpdate. destruct get as [existing | e].
  - case_bool_decide as Heq; [| destruct (update (mutate existing)) eqn:Hup];
      right; right; exists existing; (split; [done |]; split; [done |]).
    + left. by rewrite <- Heq.
    + right. rewrite Hup. repeat split; try done.
    + right. rewrite Hup. repeat split; try done.
  - destruct (IsNotFound e) eqn:Hnf.
    + destruct (create (mutate obj)) eqn:Hc; right; left; exists e; rewrite Hc; by repeat split.
    + left. by exists e.
Qed.

(** X18.  [reconcileDefaultHelmRepo] sends nothing when the repository
    exists with the desired specification; otherwise it sends at most one
    write: the creation of the repository under the default name in the
    templates namespace when it was not found, or the update of the
    existing one when its specification differs, in both cases with the
    desired specification, which names a secret exactly when the poller has
    a registry credentials secret. *)
Theorem X18_helm_repository_writes (k : PollerConstants) (p : Poller) :
  let '(err, evs) := reconcileDefaultHelmRepo k p in
  let get := p_Get_HelmRepository p (TemplatesNamespace k) (defaultRepoName k) in
  (∀ existing, get = Ok existing → repo_Spec existing = defaultHelmRepoSpec k p →
     err = None ∧ evs = [])
  ∧ (evs = []
     ∨ (∃ e o, get = Err e ∧ IsNotFound e = true ∧ evs = [PEvCreateHelmRepository o]
               ∧ repo_Namespace o = TemplatesNamespace k
               ∧ repo_Name o = defaultRepoName k
               ∧ repo_Spec o = defaultHelmRepoSpec k p)
     ∨ (∃ existing o, get = Ok existing ∧ evs = [PEvUpdateHelmRepository o]
                      ∧ repo_Spec existing ≠ defaultHelmRepoSpec k p
                      ∧ o = mkHelmRepository (repo_Namespace existing) (repo_Name existing)
                              (defaultHelmRepoSpec k p) (repo_Rest existing)))
  ∧ repoSpec_SecretRef (defaultHelmRepoSpec k p)
    = (if bool_decide (RegistryCredentialsSecret p = "") then None
       else Some (RegistryCredentialsSecret p)).
Proof.
  unfold reconcileDefaultHelmRepo.
  match goal with
  | |- context [CreateOrUpdate ?g ?c ?u ?cr ?up ?o ?m] =>
      pose proof (CreateOrUpdate_cases g c u cr up o m) as Hcases;
      destruct (CreateOrUpdate g c u cr up o m) as [[op o'] evs]
  end.
  assert (repoSpec_SecretRef (defaultHelmRepoSpec k p)
          = (if bool_decide (RegistryCredentialsSecret p = "") then None
             else Some (RegistryCredentialsSecret p))) as Hsecret.
  { unfold defaultHelmRepoSpec. by repeat case_bool_decide. }
  assert (∀ existing : HelmRepository,
            mkHelmRepository (repo_Namespace existing) (repo_Name existing)
              (defaultHelmRepoSpec k p) (repo_Rest existing) = existing
            ↔ repo_Spec existing = defaultHelmRepoSpec k p) as Hsame.
  { intros [ns n spec rest]. simpl. split; [by intros [= ->] | by intros ->]. }
  match goal with
  | |- context [match op with Err err => (Some err, evs) | Ok _ => (None, evs) end] =>
      replace (match op with Err err => (Some err, evs) | Ok _ => (None, evs) end)
        with (match op with Err err => Some err | Ok _ => None end, evs)
        by (by destruct op)
  end.
  cbn beta iota zeta.
  destruct Hcases as [(e & Hget & Hnf & -> & ->)
    | [(e & Hget & Hnf & -> & -> & Hop)
    | (existing & Hget & -> & [(Hfix & -> & ->) | (Hdiff & -> & Hop)])]].
  - split; [| split; [by left | done]]. intros existing Hex. congruence.
  - split; [| split; [| done]].
    + intros existing Hex. congruence.
    + right; left. eexists e, _. by repeat split.
  - split; [| split; [by left | done]]. done.
  - split; [| split; [| done]].
    + intros existing' Hex Hspec. exfalso. apply Hdiff.
      assert (existing' = existing) as -> by congruence. by apply Hsame.
    + right; right. eexists existing, _. repeat split; try done.
      intros Hspec. by apply Hdiff, Hsame.
Qed.

Lemma reconcileDefaultHelmRepo_requests (k : PollerConstants) (p : Poller) :
  Forall (λ ev, isHelmRepositoryWrite ev = true) (reconcileDefaultHelmRepo k p).2
  ∧ (length (reconcileDefaultHelmRepo k p).2 ≤ 1)%nat.
Proof.
  unfold reconcileDefaultHelmRepo.
  match goal with
  | |- context [CreateOrUpdate ?g ?c ?u ?cr ?up ?o ?m] =>
      pose proof (CreateOrUpdate_cases g c u cr up o m) as Hcases;
      destruct (CreateOrUpdate g c u cr up o m) as [[op o'] evs]
  end.
  assert (evs = [] ∨ (∃ o, evs = [PEvCreateHelmRepository o])
          ∨ (∃ o, evs = [PEvUpdateHelmRepository o])) as Hevs.
  { destruct Hcases as [(e & _ & _ & _ & ->)
      | [(e & _ & _ & _ & -> & _) | (ex & _ & _ & [(_ & -> & _) | (_ & -> & _)])]];
      eauto. }
  destruct op; cbn [snd];
    destruct Hevs as [-> | [[o ->] | [o ->]]]; simpl; split;
    repeat constructor; lia.
Qed.

Ltac poller_events :=
  repeat match goal with
         | H : _ ∈ [] |- _ => by apply elem_of_nil in H
         | H : _ ∈ (_ :: _) |- _ => apply elem_of_cons in H as [H | H]
         | H : _ ∈ (_ ++ _)%list |- _ => apply elem_of_app in H as [H | H]
         | H : _ ∨ _ |- _ => destruct H as [H | H]
         | H : PEvCreateHelmChart _ = _ |- _ => inversion H; clear H; subst
         | H : PEvUpdateHelmChart _ = _ |- _ => inversion H; clear H; subst
         | H : PEvReconcileHelmRelease _ _ _ _ = _ |- _ => inversion H; clear H; subst
         | H : PEvCreateManagement _ _ = _ |- _ => inversion H; clear H; subst
         end.

(** X19.  [reconcileHMCTemplates] sends nothing when templates are
    switched off.  A chart it writes carries the managed label "true" and
    the templates chart specification; a chart is created only when it was
    not found, under the poller's chart name in the templates namespace; an
    update keeps the existing chart's name, namespace, status and all other
    labels.  The templates release is upserted, as "hmc-templates" in the
    templates namespace with the default interval, only for a chart whose
    write (if any) was accepted and whose artifact is ready. *)
Theorem X19_templates_chart_and_release (k : PollerConstants) (p : Poller) :
  let '(err, evs) := reconcileHMCTemplates k p in
  let get := p_Get_HelmChart p (TemplatesNamespace k) (HMCTemplatesChartName p) in
  (CreateTemplates p = false → err = None ∧ evs = [])
  ∧ (∀ o, PEvCreateHelmChart o ∈ evs ∨ PEvUpdateHelmChart o ∈ evs →
       chart_Labels o !! HMCManagedLabelKey k = Some "true"
       ∧ chart_Spec o = templatesChartSpec k p)
  ∧ (∀ o, PEvCreateHelmChart o ∈ evs →
       chart_Namespace o = TemplatesNamespace k
       ∧ chart_Name o = HMCTemplatesChartName p
       ∧ ∃ e, get = Err e ∧ IsNotFound e = true)
  ∧ (∀ o, PEvUpdateHelmChart o ∈ evs →
       ∃ existing, get = Ok existing ∧ o ≠ existing
                   ∧ chart_Namespace o = chart_Namespace existing
                   ∧ chart_Name o = chart_Name existing
                   ∧ chart_Rest o = chart_Rest existing
                   ∧ ∀ key, key ≠ HMCManagedLabelKey k →
                       chart_Labels o !! key = chart_Labels existing !! key)
  ∧ (∀ name namespace chartRef interval,
       PEvReconcileHelmRelease name namespace chartRef interval ∈ evs →
       name = hmcTemplatesReleaseName ∧ namespace = TemplatesNamespace k
       ∧ interval = defaultReconcileInterval k
       ∧ ∃ chart,
           chartRef = mkChartRef (chart_Kind chart) (chart_Namespace chart) (chart_Name chart)
           ∧ chart_Spec chart = templatesChartSpec k p
           ∧ chart_Labels chart !! HMCManagedLabelKey k = Some "true"
           ∧ p_helm_ArtifactReady p chart = None
           ∧ (∀ o, PEvCreateHelmChart o ∈ evs → o = chart ∧ p_Create_HelmChart p o = None)
           ∧ (∀ o, PEvUpdateHelmChart o ∈ evs → o = chart ∧ p_Update_HelmChart p o = None)).
Proof.
  unfold reconcileHMCTemplates.
  destruct (CreateTemplates p); cbn [negb];
    [| repeat split; try done; intros; poller_events].
  match goal with
  | |- context [CreateOrUpdate ?g ?c ?u ?cr ?up ?o ?m] =>
      pose proof (CreateOrUpdate_cases g c u cr up o m) as Hcases;
      destruct (CreateOrUpdate g c u cr up o m) as [[op chart] writes]
  end.
  destruct Hcases as [(e & Hget & Hnf & -> & ->)
    | [(e & Hget & Hnf & -> & -> & Hop)
    | (existing & Hget & -> & [(Hfix & -> & ->) | (Hdiff & -> & Hop)])]].
  - repeat split; try done; intros; poller_events.
  - destruct (p_Create_HelmChart p _) as [e' |] eqn:Hcreate; subst op.
    { repeat split; try done; intros; poller_events; cbn;
        rewrite ?lookup_insert_eq; eauto. }
    destruct (p_helm_ArtifactReady p _) eqn:Hready.
    { repeat split; try done; intros; poller_events; cbn;
        rewrite ?lookup_insert_eq; eauto. }
    destruct (p_helm_ReconcileHelmRelease p _ _ _ _);
      (split; [done |]); (split; [| split; [| split]]);
      try (intros; poller_events; cbn; rewrite ?lookup_insert_eq; by eauto);
      (intros name namespace chartRef interval Hev; poller_events;
       repeat split; try done;
       match type of Hready with p_helm_ArtifactReady p ?c = None => exists c end;
       split; [reflexivity |];
       split; [reflexivity |]; split; [by cbn; rewrite lookup_insert_eq |];
       split; [exact Hready |]; split; intros o Ho; by poller_events).
  - destruct (p_helm_ArtifactReady p _) eqn:Hready.
    { repeat split; try done; intros; poller_events. }
    destruct (p_helm_ReconcileHelmRelease p _ _ _ _);
      (split; [done |]); (split; [| split; [| split]]);
      try (intros; by poller_events);
      (intros name namespace chartRef interval Hev; poller_events;
       repeat split; try done;
       match type of Hready with p_helm_ArtifactReady p ?c = None => exists c end;
       split; [reflexivity |];
       split; [reflexivity |]; split; [by cbn; rewrite lookup_insert_eq |];
       split; [exact Hready |]; split; intros o Ho; by poller_events).
  - assert (∀ key, key ≠ HMCManagedLabelKey k →
              <[HMCManagedLabelKey k := "true"]> (chart_Labels existing) !! key
              = chart_Labels existing !! key) as Hkept.
    { intros key Hkey. by rewrite lookup_insert_ne. }
    destruct (p_Update_HelmChart p _) as [e' |] eqn:Hupdate; subst op.
    { repeat split; try done; intros; poller_events; cbn;
        rewrite ?lookup_insert_eq; try done;
        exists existing; by repeat split. }
    destruct (p_helm_ArtifactReady p _) eqn:Hready.
    { repeat split; try done; intros; poller_events; cbn;
        rewrite ?lookup_insert_eq; try done;
        exists existing; by repeat split. }
    destruct (p_helm_ReconcileHelmRelease p _ _ _ _);
      (split; [done |]); (split; [| split; [| split]]);
      try (intros; poller_events; cbn; rewrite ?lookup_insert_eq; try done;
           exists existing; by repeat split);
      (intros name namespace chartRef interval Hev; poller_events;
       repeat split; try done;
       match type of Hready with p_helm_ArtifactReady p ?c = None => exists c end;
       split; [reflexivity |];
       split; [reflexivity |]; split; [by cbn; rewrite lookup_insert_eq |];
       split; [exact Hready |]; split; intros o Ho; by poller_events).
Qed.

Lemma reconcileHMCTemplates_requests (k : PollerConstants) (p : Poller) :
  Forall (λ ev, isTemplatesRequest ev = true) (reconcileHMCTemplates k p).2
  ∧ (length (reconcileHMCTemplates k p).2 ≤ 2)%nat
  ∧ ((reconcileHMCTemplates k p).2 ≠ [] → CreateTemplates p = true).
Proof.
  unfold reconcileHMCTemplates.
  destruct (CreateTemplates p); cbn [negb snd];
    [| split; [constructor | split; [simpl; lia | done]]].
  match goal with
  | |- context [CreateOrUpdate ?g ?c ?u ?cr ?up ?o ?m] =>
      pose proof (CreateOrUpdate_cases g c u cr up o m) as Hcases;
      destruct (CreateOrUpdate g c u cr up o m) as [[op chart] writes]
  end.
  assert (writes = [] ∨ (∃ o, writes = [PEvCreateHelmChart o])
          ∨ (∃ o, writes = [PEvUpdateHelmChart o])) as Hwrites.
  { destruct Hcases as [(e & _ & _ & _ & ->)
      | [(e & _ & _ & _ & -> & _) | (ex & _ & _ & [(_ & -> & _) | (_ & -> & _)])]];
      eauto. }
  destruct op; [destruct (p_helm_ArtifactReady p chart);
                  [| destruct (p_helm_ReconcileHelmRelease p _ _ _ _)] |];
    cbn [snd]; destruct Hwrites as [-> | [[o ->] | [o ->]]]; simpl;
    (split; [repeat constructor | split; [lia | done]]).
Qed.

(** X20.  [ensureManagement] sends at most the creation of the Management
    object, and sends it exactly when creation is switched on and the
    lookup answered NotFound; it returns no error exactly when creation is
    switched off, the object exists, or the creation was accepted; and an
    error it returns is a plain message that does not wrap its cause. *)
Theorem X20_management_is_created_only_when_missing (k : PollerConstants) (p : Poller) :
  let '(err, evs) := ensureManagement k p in
  let get := p_Get_Management p (ManagementNamespace k) (ManagementName k) in
  (evs = [] ∨ evs = [PEvCreateManagement (ManagementNamespace k) (ManagementName k)])
  ∧ (evs ≠ [] ↔ CreateManagement p = true ∧ ∃ e, get = Some e ∧ IsNotFound e = true)
  ∧ (err = None ↔
       CreateManagement p = false ∨ get = None
       ∨ ((∃ e, get = Some e ∧ IsNotFound e = true)
          ∧ p_Create_Management p (ManagementNamespace k) (ManagementName k) = None))
  ∧ (∀ e, err = Some e → ∃ msg, e = errors_New msg).
Proof.
  unfold ensureManagement.
  destruct (CreateManagement p); cbn [negb].
  2: { split; [by left |]. split; [split; [done | by intros [? _]] |].
       split; [split; [by left | done] | done]. }
  destruct (p_Get_Management p _ _) as [e |] eqn:Hget.
  2: { split; [by left |]. split; [split; [done | by intros [_ (? & ? & _)]] |].
       split; [split; [by right; left | done] | done]. }
  destruct (IsNotFound e) eqn:Hnf; cbn [negb].
  - destruct (p_Create_Management p _ _) as [e' |] eqn:Hcreate.
    + split; [by right |]. split; [split; [by eauto | done] |].
      split; [split; [done |] | intros ? [= <-]; by eexists].
      intros [? | [? | [_ ?]]]; congruence.
    + split; [by right |]. split; [split; [by eauto | done] |].
      split; [split; [intros _; right; right; by eauto | done] | done].
  - split; [by left |]. split; [split; [done |] |].
    + intros [_ (e' & [= <-] & Hnf')]. congruence.
    + split; [split; [done |] | intros ? [= <-]; by eexists].
      intros [? | [? | [(e' & [= <-] & Hnf') _]]]; congruence.
Qed.

(** X21.  [Tick] returns no error exactly when its three steps do.  Its
    requests are at most one repository write, then at most two requests
    for the templates chart and release, then at most one creation of the
    Management object; the templates requests are sent only after the
    repository step succeeded, and the Management object is created only
    after both earlier steps succeeded. *)
Theorem X21_tick_runs_its_steps_in_order (k : PollerConstants) (p : Poller) :
  let '(err, evs) := Tick k p in
  let repo := reconcileDefaultHelmRepo k p in
  let templates := reconcileHMCTemplates k p in
  let management := ensureManagement k p in
  (err = None ↔ repo.1 = None ∧ templates.1 = None ∧ management.1 = None)
  ∧ ∃ repoWrites templatesRequests managementCreates,
      evs = (repoWrites ++ templatesRequests ++ managementCreates)%list
      ∧ Forall (λ ev, isHelmRepositoryWrite ev = true) repoWrites
      ∧ Forall (λ ev, isTemplatesRequest ev = true) templatesRequests
      ∧ Forall (λ ev, isManagementCreate ev = true) managementCreates
      ∧ (length repoWrites ≤ 1)%nat
      ∧ (length templatesRequests ≤ 2)%nat
      ∧ (length managementCreates ≤ 1)%nat
      ∧ (templatesRequests ≠ [] → repo.1 = None ∧ CreateTemplates p = true)
      ∧ (managementCreates ≠ [] →
           repo.1 = None ∧ templates.1 = None ∧ CreateManagement p = true).
Proof.
  unfold Tick.
  pose proof (reconcileDefaultHelmRepo_requests k p) as [Hrepo Hrepo1].
  pose proof (reconcileHMCTemplates_requests k p) as (Htemplates & Htemplates2 & Hon).
  assert (Forall (λ ev, isManagementCreate ev = true) (ensureManagement k p).2
          ∧ (length (ensureManagement k p).2 ≤ 1)%nat
          ∧ ((ensureManagement k p).2 ≠ [] → CreateManagement p = true))
    as (Hmanagement & Hmanagement1 & Hcreate).
  { unfold ensureManagement. destruct (CreateManagement p); cbn [negb snd];
      [| split; [constructor | split; [simpl; lia | done]]].
    destruct (p_Get_Management p _ _) as [e |];
      [| split; [constructor | split; [simpl; lia | done]]].
    destruct (IsNotFound e); cbn [negb snd];
      [| split; [constructor | split; [simpl; lia | done]]].
    destruct (p_Create_Management p _ _); cbn [snd];
      (split; [by repeat constructor | split; [simpl; lia | done]]). }
  destruct (reconcileDefaultHelmRepo k p) as [[e1 |] evs1]; cbn [fst snd] in *.
  { split; [split; [done | by intros [? _]] |].
    exists evs1, [], []. rewrite !app_nil_r. repeat split; try done; simpl; lia. }
  destruct (reconcileHMCTemplates k p) as [[e2 |] evs2]; cbn [fst snd] in *.
  { split; [split; [done | by intros (_ & ? & _)] |].
    exists evs1, evs2, []. rewrite !app_nil_r.
    repeat split; try done; try (simpl; lia); by apply Hon. }
  destruct (ensureManagement k p) as [[e3 |] evs3]; cbn [fst snd] in *.
  - split; [split; [done | by intros (_ & _ & ?)] |].
    exists evs1, evs2, evs3. repeat split; try done; by auto.
  - split; [done |].
    exists evs1, evs2, evs3. repeat split; try done; by auto.
Qed.
